(** * featureDevChatConnector: the message-routing connector of the
      feature-development chat tab

    A shallow embedding of
    [plugins/amazonq/mynah-ui/src/mynah-ui/ui/apps/featureDevChatConnector.ts].

    The connector is glue between a chat UI and the host extension: its
    outbound methods wrap their arguments in a tagged record and hand it to
    the injected [sendMessageToExtension]; [handleMessageReceive] looks at
    the [type] tag of a host record and calls the matching injected UI
    callback.  Everything observable is therefore a call made through an
    injected function, which the embedding records in a trace. *)

From stdpp Require Import gmap strings list fin_maps.

Set Warnings "-register-all".
Local Open Scope string_scope.
Local Open Scope list_scope.

(** ** JavaScript values

    The host sends JSON-like records typed [any]; the values that flow through
    the connector are JSON data together with [undefined].  Objects are
    finite maps from property names to values. *)

Inductive JsVal : Type :=
| JUndefined
| JNull
| JBool (b : bool)
| JNum (n : Z)
| JStr (s : string)
| JArr (xs : list JsVal)
| JObj (props : gmap string JsVal).

Abbreviation JsObject := (gmap string JsVal).

(** [o.k] on an object: the property's value, [undefined] when there is no
    such property.  (None of the names the connector reads is inherited from
    [Object.prototype].) *)
Definition field (o : JsObject) (k : string) : JsVal :=
  default JUndefined (o !! k).

Notation "o .[ k ]" := (field o k) (at level 1, left associativity, format "o .[ k ]").

(** An object literal [{k1: v1, k2: v2, ...}]: properties are written in
    source order, a later one replacing an earlier one of the same name. *)
Definition object (l : list (string * JsVal)) : JsObject :=
  foldl (fun o kv => <[kv.1 := kv.2]> o) ∅ l.

(** [a ?? b] *)
Definition nullish (v : JsVal) : bool :=
  match v with
  | JUndefined | JNull => true
  | _ => false
  end.

Definition coalesce (a b : JsVal) : JsVal := if nullish a then b else a.

Infix "??" := coalesce (at level 45, left associativity).

(** [v === 'literal'] *)
Definition strict_eq_str (v : JsVal) (s : string) : bool :=
  match v with
  | JStr s' => String.eqb s' s
  | _ => false
  end.

Infix "===" := strict_eq_str (at level 65, no associativity).

(** [Array.isArray(v)] *)
Definition isArray (v : JsVal) : bool :=
  match v with
  | JArr _ => true
  | _ => false
  end.

(** ** Calls through injected functions, and the effect monad

    [Callback] names the functions the constructor copies out of
    [ConnectorProps]; a [Call] is one invocation with its argument list. *)

Inductive Callback : Type :=
| sendMessageToExtension
| onChatAnswerReceived
| onChatAnswerUpdated
| onAsyncEventProgress
| onError
| onWarning
| onUpdatePlaceholder
| onChatInputEnabled
| onUpdateAuthentication
| onNewTab
| onFileComponentUpdate.

Record Call : Type := MkCall { callee : Callback; args : list JsVal }.

Inductive JsError : Type :=
| TypeError.

(** A computation makes calls in order and then either returns a value or
    throws; for an [async] function "throws" reads "the returned promise is
    rejected". *)
Definition Eff (A : Type) : Type := list Call * (JsError + A).

Definition ret {A} (a : A) : Eff A := ([], inr a).

Definition throw {A} (e : JsError) : Eff A := ([], inl e).

Definition bind {A B} (m : Eff A) (k : A -> Eff B) : Eff B :=
  match m with
  | (t, inl e) => (t, inl e)
  | (t, inr a) => let '(t', r) := k a in (t ++ t', r)
  end.

Notation "x <- m ;; k" := (bind m (fun x => k))
  (at level 100, m at next level, right associativity).
Notation "m ;; k" := (bind m (fun _ => k))
  (at level 100, right associativity).

Definition invoke (cb : Callback) (xs : list JsVal) : Eff unit :=
  ([MkCall cb xs], inr tt).

(** Calling an [async] function without [await]: its calls happen, a
    rejection of its promise is not seen by the caller. *)
Definition detach (m : Eff unit) : Eff unit := (m.1, inr tt).

Fixpoint mapM {A B} (f : A -> Eff B) (l : list A) : Eff (list B) :=
  match l with
  | [] => ret []
  | x :: r => y <- f x ;; ys <- mapM f r ;; ret (y :: ys)
  end.

(** [v.k] where [v] is any value: reading a property of [undefined] or
    [null] throws; primitives and arrays have no own property of the names
    read here. *)
Definition getProp (v : JsVal) (k : string) : Eff JsVal :=
  match v with
  | JUndefined | JNull => throw TypeError
  | JObj o => ret o.[k]
  | _ => ret JUndefined
  end.

(** [...v] inside an array literal: arrays yield their elements, strings
    their characters (exact for ASCII text), anything else is not iterable. *)
Definition spread (v : JsVal) : Eff (list JsVal) :=
  match v with
  | JArr xs => ret xs
  | JStr s => ret ((fun c => JStr (String c EmptyString)) <$> String.list_ascii_of_string s)
  | _ => throw TypeError
  end.

(** [v.map(f)]: only arrays have a [map] method. *)
Definition arrayMap (v : JsVal) (f : JsVal -> Eff JsVal) : Eff JsVal :=
  match v with
  | JArr xs => ys <- mapM f xs ;; ret (JArr ys)
  | _ => throw TypeError
  end.

(** ** Promises

    [new Promise(executor)] runs the executor at once, handing it the two
    settling functions; the first settlement wins, and an executor that throws
    rejects a promise that is still pending. *)

Inductive PromiseState : Type :=
| Pending
| Fulfilled (v : JsVal)
| Rejected (reason : JsError + JsVal).

Definition settle (st new : PromiseState) : PromiseState :=
  match st with
  | Pending => new
  | _ => st
  end.

Definition Exec (A : Type) : Type := PromiseState -> PromiseState * Eff A.

Definition liftExec {A} (m : Eff A) : Exec A := fun st => (st, m).

Definition resolveWith (v : JsVal) : Exec unit :=
  fun st => (settle st (Fulfilled v), ret tt).

Definition rejectWith (v : JsVal) : Exec unit :=
  fun st => (settle st (Rejected (inr v)), ret tt).

Definition newPromise
    (executor : (JsVal -> Exec unit) -> (JsVal -> Exec unit) -> Exec unit)
    : Eff PromiseState :=
  match executor resolveWith rejectWith Pending with
  | (st, (t, inl e)) => (t, inr (settle st (Rejected (inl e))))
  | (st, (t, inr _)) => (t, inr st)
  end.

(** ** The connector

    [ConnectorProps] declares [onChatAnswerReceived] and [onChatAnswerUpdated]
    optional and every other callback required; the record says which of the
    two optional ones the owner supplied. *)

Record ConnectorProps : Type := {
  has_onChatAnswerReceived : bool;
  has_onChatAnswerUpdated : bool
}.

(** The [ChatItemType] enumeration is imported from the UI library
    [@aws/mynah-ui-chat]; these are its two members the connector names. *)
Definition ChatItemType_ANSWER : string := "answer".
Definition ChatItemType_SYSTEM_PROMPT : string := "system-prompt".

(** *** Outbound action methods (UI to host) *)

Definition onCodeInsertToCursorPosition (tabID code type codeReference : JsVal) : Eff unit :=
  invoke sendMessageToExtension [JObj (object [
    ("tabID", tabID);
    ("code", code);
    ("command", JStr "insert_code_at_cursor_position");
    ("codeReference", codeReference);
    ("tabType", JStr "featuredev")])].

Definition onCopyCodeToClipboard (tabID code type codeReference : JsVal) : Eff unit :=
  invoke sendMessageToExtension [JObj (object [
    ("tabID", tabID);
    ("code", code);
    ("command", JStr "code_was_copied_to_clipboard");
    ("codeReference", codeReference);
    ("tabType", JStr "featuredev")])].

Definition onOpenDiff (tabID filePath deleted : JsVal) : Eff unit :=
  invoke sendMessageToExtension [JObj (object [
    ("command", JStr "open-diff");
    ("tabID", tabID);
    ("filePath", filePath);
    ("deleted", deleted);
    ("tabType", JStr "featuredev")])].

Definition followUpClicked (tabID followUp : JsVal) : Eff unit :=
  invoke sendMessageToExtension [JObj (object [
    ("command", JStr "follow-up-was-clicked");
    ("followUp", followUp);
    ("tabID", tabID);
    ("tabType", JStr "featuredev")])].

(** The executor names neither [resolve] nor [reject]. *)
Definition requestGenerativeAIAnswer (tabID : JsVal) (payload : JsObject) : Eff PromiseState :=
  newPromise (fun resolve reject =>
    liftExec (invoke sendMessageToExtension [JObj (object [
      ("tabID", tabID);
      ("command", JStr "chat-prompt");
      ("chatMessage", payload.["chatMessage"]);
      ("tabType", JStr "featuredev")])])).

Definition onFileActionClick (tabID messageId filePath actionName : JsVal) : Eff unit :=
  invoke sendMessageToExtension [JObj (object [
    ("command", JStr "file-click");
    ("tabID", tabID);
    ("messageId", messageId);
    ("filePath", filePath);
    ("actionName", actionName);
    ("tabType", JStr "featuredev")])].

Definition onStopChatResponse (tabID : JsVal) : Eff unit :=
  invoke sendMessageToExtension [JObj (object [
    ("tabID", tabID);
    ("command", JStr "stop-response");
    ("tabType", JStr "featuredev")])].

Definition onTabOpen (tabID : JsVal) : Eff unit :=
  invoke sendMessageToExtension [JObj (object [
    ("tabID", tabID);
    ("command", JStr "new-tab-was-created");
    ("tabType", JStr "featuredev")])].

Definition onTabRemove (tabID : JsVal) : Eff unit :=
  invoke sendMessageToExtension [JObj (object [
    ("tabID", tabID);
    ("command", JStr "tab-was-removed");
    ("tabType", JStr "featuredev")])].

(** [{command: ..., ...feedbackPayload, tabType: ..., tabID: tabId}]: the
    payload's own properties are copied in after [command] and before
    [tabType] and [tabID]. *)
Definition sendFeedback (tabId : JsVal) (feedbackPayload : JsObject) : Eff unit :=
  invoke sendMessageToExtension [JObj (
    <["tabID" := tabId]> (
    <["tabType" := JStr "featuredev"]> (
    feedbackPayload ∪ object [("command", JStr "chat-item-feedback")])))].

Definition onChatItemVoted (tabId messageId vote : JsVal) : Eff unit :=
  invoke sendMessageToExtension [JObj (object [
    ("tabID", tabId);
    ("messageId", messageId);
    ("vote", vote);
    ("command", JStr "chat-item-voted");
    ("tabType", JStr "featuredev")])].

Definition onResponseBodyLinkClick (tabID messageId link : JsVal) : Eff unit :=
  invoke sendMessageToExtension [JObj (object [
    ("command", JStr "response-body-link-click");
    ("tabID", tabID);
    ("messageId", messageId);
    ("link", link);
    ("tabType", JStr "featuredev")])].

(** *** Inbound dispatch (host to UI) *)

(** [v !== undefined] *)
Definition is_defined (v : JsVal) : bool :=
  match v with
  | JUndefined => false
  | _ => true
  end.

(** [v.length === 0], which the connector evaluates only for a [v] that
    passed [Array.isArray]. *)
Definition length_is_zero (v : JsVal) : bool :=
  match v with
  | JArr xs => Nat.eqb (length xs) 0
  | _ => false
  end.

Definition createAnswer (messageData : JsObject) : JsObject :=
  object [
    ("type", messageData.["messageType"]);
    ("body", messageData.["message"] ?? JUndefined);
    ("messageId",
       messageData.["messageId"] ?? messageData.["messageID"] ??
       messageData.["triggerID"] ?? JStr "");
    ("relatedContent", JUndefined);
    ("canBeVoted", messageData.["canBeVoted"] ?? JUndefined);
    ("snapToTop", messageData.["snapToTop"] ?? JUndefined);
    ("informationCard", messageData.["informationCard"] ?? JUndefined);
    ("followUp",
       if is_defined messageData.["followUps"] && isArray messageData.["followUps"]
       then JObj (object [
         ("text",
            if (messageData.["messageType"] === ChatItemType_SYSTEM_PROMPT)
               || length_is_zero messageData.["followUps"]
            then JStr ""
            else JStr "Please follow up with one of these");
         ("options", messageData.["followUps"])])
       else JUndefined)].

(** The identifier computed on the first line of [processCodeResultMessage]. *)
Definition codeResultMessageId (messageData : JsObject) : JsVal :=
  messageData.["messageId"] ?? messageData.["messageID"] ??
  messageData.["triggerID"] ?? messageData.["conversationID"] ??
  messageData.["codeGenerationId"].

Section Inbound.

(** The two collaborators the connector imports: [getActions] of the diff
    tree, from the combined file entries to the file-list actions, and
    [FollowUpGenerator.generateAuthFollowUps], from a tab type and an auth
    type to a follow-up block. *)
Variable getActions : list JsVal -> JsVal.
Variable generateAuthFollowUps : string -> JsVal -> JsVal.

Definition processChatMessage (props : ConnectorProps) (messageData : JsObject) : Eff unit :=
  if has_onChatAnswerReceived props then
    let answer := createAnswer messageData in
    invoke onChatAnswerReceived [messageData.["tabID"]; JObj answer]
  else ret tt.

Definition processCodeResultMessage (props : ConnectorProps) (messageData : JsObject) : Eff unit :=
  if has_onChatAnswerReceived props then
    let messageId := codeResultMessageId messageData in
    invoke sendMessageToExtension [JObj (object [
      ("command", JStr "store-code-result-message-id");
      ("tabID", messageData.["tabID"]);
      ("messageId", messageId);
      ("tabType", JStr "featuredev")])] ;;
    added <- spread messageData.["filePaths"] ;;
    deleted <- spread messageData.["deletedFiles"] ;;
    let actions := getActions (added ++ deleted) in
    filePaths <- arrayMap messageData.["filePaths"] (fun path => getProp path "zipFilePath") ;;
    deletedFiles <- arrayMap messageData.["deletedFiles"] (fun path => getProp path "zipFilePath") ;;
    let answer := object [
      ("type", JStr ChatItemType_ANSWER);
      ("relatedContent", JUndefined);
      ("followUp", JUndefined);
      ("canBeVoted", JBool true);
      ("codeReference", messageData.["references"]);
      ("messageId", messageId);
      ("fileList", JObj (object [
         ("rootFolderTitle", JStr "Changes");
         ("filePaths", filePaths);
         ("deletedFiles", deletedFiles);
         ("actions", actions)]));
      ("body", JStr "")] in
    invoke onChatAnswerReceived [messageData.["tabID"]; JObj answer]
  else ret tt.

Definition processAuthNeededException (props : ConnectorProps) (messageData : JsObject) : Eff unit :=
  if negb (has_onChatAnswerReceived props) then ret tt
  else
    invoke onChatAnswerReceived [messageData.["tabID"]; JObj (object [
      ("type", JStr ChatItemType_ANSWER);
      ("body", messageData.["message"]);
      ("followUp", JUndefined);
      ("canBeVoted", JBool false)])] ;;
    invoke onChatAnswerReceived [messageData.["tabID"]; JObj (object [
      ("type", JStr ChatItemType_SYSTEM_PROMPT);
      ("body", JUndefined);
      ("followUp", generateAuthFollowUps "featuredev" messageData.["authType"]);
      ("canBeVoted", JBool false)])] ;;
    ret tt.

Definition handleMessageReceive (props : ConnectorProps) (messageData : JsObject) : Eff unit :=
  if messageData.["type"] === "updateFileComponent" then
    invoke onFileComponentUpdate [
      messageData.["tabID"]; messageData.["filePaths"]; messageData.["deletedFiles"];
      messageData.["messageId"]; messageData.["disableFileActions"]]
  else if messageData.["type"] === "updateChatAnswer" then
    let answer := createAnswer messageData in
    if has_onChatAnswerUpdated props
    then invoke onChatAnswerUpdated [messageData.["tabID"]; JObj answer]
    else ret tt
  else if messageData.["type"] === "errorMessage" then
    invoke onError [messageData.["tabID"]; messageData.["message"]; messageData.["title"]]
  else if messageData.["type"] === "showInvalidTokenNotification" then
    invoke onWarning [messageData.["tabID"]; messageData.["message"]; messageData.["title"]]
  else if messageData.["type"] === "chatMessage" then
    processChatMessage props messageData
  else if messageData.["type"] === "codeResultMessage" then
    processCodeResultMessage props messageData
  else if messageData.["type"] === "asyncEventProgressMessage" then
    invoke onAsyncEventProgress [
      messageData.["tabID"]; messageData.["inProgress"];
      messageData.["message"] ?? JUndefined; JBool true]
  else if messageData.["type"] === "updatePlaceholderMessage" then
    invoke onUpdatePlaceholder [messageData.["tabID"]; messageData.["newPlaceholder"]]
  else if messageData.["type"] === "chatInputEnabledMessage" then
    invoke onChatInputEnabled [messageData.["tabID"]; messageData.["enabled"]]
  else if messageData.["type"] === "authenticationUpdateMessage" then
    invoke onUpdateAuthentication [
      messageData.["featureDevEnabled"]; messageData.["codeTransformEnabled"];
      messageData.["docEnabled"]; messageData.["codeScanEnabled"];
      messageData.["codeTestEnabled"]; messageData.["authenticatingTabIDs"]]
  else if messageData.["type"] === "authNeededException" then
    detach (processAuthNeededException props messageData)
  else if messageData.["type"] === "openNewTabMessage" then
    invoke onNewTab [JStr "featuredev"]
  else ret tt.

End Inbound.

(** ** The outbound methods as one family

    [Action] is one call of an outbound method with its arguments;
    [command_of] is the tag each method documents. *)

Inductive Action : Type :=
| CodeInsertToCursorPosition (tabID code type codeReference : JsVal)
| CopyCodeToClipboard (tabID code type codeReference : JsVal)
| OpenDiff (tabID filePath deleted : JsVal)
| FollowUpClicked (tabID followUp : JsVal)
| RequestGenerativeAIAnswer (tabID : JsVal) (payload : JsObject)
| FileActionClick (tabID messageId filePath actionName : JsVal)
| StopChatResponse (tabID : JsVal)
| TabOpen (tabID : JsVal)
| TabRemove (tabID : JsVal)
| SendFeedback (tabId : JsVal) (feedbackPayload : JsObject)
| ChatItemVoted (tabId messageId vote : JsVal)
| ResponseBodyLinkClick (tabID messageId link : JsVal).

Definition perform (a : Action) : Eff unit :=
  match a with
  | CodeInsertToCursorPosition t c ty r => onCodeInsertToCursorPosition t c ty r
  | CopyCodeToClipboard t c ty r => onCopyCodeToClipboard t c ty r
  | OpenDiff t f d => onOpenDiff t f d
  | FollowUpClicked t f => followUpClicked t f
  | RequestGenerativeAIAnswer t p => _ <- requestGenerativeAIAnswer t p ;; ret tt
  | FileActionClick t m f n => onFileActionClick t m f n
  | StopChatResponse t => onStopChatResponse t
  | TabOpen t => onTabOpen t
  | TabRemove t => onTabRemove t
  | SendFeedback t p => sendFeedback t p
  | ChatItemVoted t m v => onChatItemVoted t m v
  | ResponseBodyLinkClick t m l => onResponseBodyLinkClick t m l
  end.

Definition command_of (a : Action) : string :=
  match a with
  | CodeInsertToCursorPosition _ _ _ _ => "insert_code_at_cursor_position"
  | CopyCodeToClipboard _ _ _ _ => "code_was_copied_to_clipboard"
  | OpenDiff _ _ _ => "open-diff"
  | FollowUpClicked _ _ => "follow-up-was-clicked"
  | RequestGenerativeAIAnswer _ _ => "chat-prompt"
  | FileActionClick _ _ _ _ => "file-click"
  | StopChatResponse _ => "stop-response"
  | TabOpen _ => "new-tab-was-created"
  | TabRemove _ => "tab-was-removed"
  | SendFeedback _ _ => "chat-item-feedback"
  | ChatItemVoted _ _ _ => "chat-item-voted"
  | ResponseBodyLinkClick _ _ _ => "response-body-link-click"
  end.

(** The outbound contract: one call, to [sendMessageToExtension], of a record
    with the feature discriminator and the method's tag; normal return. *)
Definition sends_one_tagged (a : Action) : Prop :=
  exists msg : JsObject,
    perform a = ([MkCall sendMessageToExtension [JObj msg]], inr tt) /\
    msg.["tabType"] = JStr "featuredev" /\
    msg.["command"] = JStr (command_of a).

(** The payload of a feedback call has no own property called [command]. *)
Definition payload_keeps_command (a : Action) : Prop :=
  match a with
  | SendFeedback _ p => p !! "command" = None
  | _ => True
  end.

(** ** The inbound tags and the callback each one documents *)

Inductive Tag : Type :=
| TagUpdateFileComponent
| TagUpdateChatAnswer
| TagErrorMessage
| TagShowInvalidTokenNotification
| TagChatMessage
| TagCodeResultMessage
| TagAsyncEventProgressMessage
| TagUpdatePlaceholderMessage
| TagChatInputEnabledMessage
| TagAuthenticationUpdateMessage
| TagAuthNeededException
| TagOpenNewTabMessage.

Definition tag_name (T : Tag) : string :=
  match T with
  | TagUpdateFileComponent => "updateFileComponent"
  | TagUpdateChatAnswer => "updateChatAnswer"
  | TagErrorMessage => "errorMessage"
  | TagShowInvalidTokenNotification => "showInvalidTokenNotification"
  | TagChatMessage => "chatMessage"
  | TagCodeResultMessage => "codeResultMessage"
  | TagAsyncEventProgressMessage => "asyncEventProgressMessage"
  | TagUpdatePlaceholderMessage => "updatePlaceholderMessage"
  | TagChatInputEnabledMessage => "chatInputEnabledMessage"
  | TagAuthenticationUpdateMessage => "authenticationUpdateMessage"
  | TagAuthNeededException => "authNeededException"
  | TagOpenNewTabMessage => "openNewTabMessage"
  end.

Definition documented (T : Tag) : Callback :=
  match T with
  | TagUpdateFileComponent => onFileComponentUpdate
  | TagUpdateChatAnswer => onChatAnswerUpdated
  | TagErrorMessage => onError
  | TagShowInvalidTokenNotification => onWarning
  | TagChatMessage => onChatAnswerReceived
  | TagCodeResultMessage => onChatAnswerReceived
  | TagAsyncEventProgressMessage => onAsyncEventProgress
  | TagUpdatePlaceholderMessage => onUpdatePlaceholder
  | TagChatInputEnabledMessage => onChatInputEnabled
  | TagAuthenticationUpdateMessage => onUpdateAuthentication
  | TagAuthNeededException => onChatAnswerReceived
  | TagOpenNewTabMessage => onNewTab
  end.

(** The record carries the tag [T]. *)
Definition tagged (messageData : JsObject) (T : Tag) : Prop :=
  messageData.["type"] = JStr (tag_name T).

(** The calls of a trace that went to a UI callback, that is to anything but
    the send-to-host function. *)
Definition is_ui_call (c : Call) : bool :=
  match callee c with
  | sendMessageToExtension => false
  | _ => true
  end.

Definition ui_calls (t : list Call) : list Call := List.filter is_ui_call t.

(** An array none of whose entries is [undefined] or [null]: what
    [filePaths] and [deletedFiles] must be for the casts to
    [DiffTreeFileInfo[]] in [processCodeResultMessage] to hold. *)
Definition is_file_list (v : JsVal) : bool :=
  match v with
  | JArr xs => forallb (fun x => negb (nullish x)) xs
  | _ => false
  end.

(** [entry.zipFilePath] for an entry that is neither [undefined] nor [null]. *)
Definition zipFilePath_of (entry : JsVal) : JsVal :=
  match entry with
  | JObj o => o.["zipFilePath"]
  | _ => JUndefined
  end.

(** How often the callback documented for [T] is called on a record. *)
Definition expected_invocations (props : ConnectorProps) (T : Tag) (messageData : JsObject) : nat :=
  match T with
  | TagUpdateChatAnswer => if has_onChatAnswerUpdated props then 1 else 0
  | TagChatMessage => if has_onChatAnswerReceived props then 1 else 0
  | TagCodeResultMessage =>
      if has_onChatAnswerReceived props
         && is_file_list messageData.["filePaths"]
         && is_file_list messageData.["deletedFiles"]
      then 1 else 0
  | TagAuthNeededException => if has_onChatAnswerReceived props then 2 else 0
  | _ => 1
  end.

(** The host-provided identifier fields, in priority order, and the first of
    a list of values that is neither [undefined] nor [null]. *)
Definition id_fields (messageData : JsObject) : list JsVal :=
  [messageData.["messageId"]; messageData.["messageID"]; messageData.["triggerID"];
   messageData.["conversationID"]; messageData.["codeGenerationId"]].

Definition first_non_missing (l : list JsVal) : option JsVal :=
  List.find (fun v => negb (nullish v)) l.

(** ** The connector over time

    Between construction and disposal the owner calls outbound methods and
    feeds host records to [handleMessageReceive].  The world records the
    calls made so far and the promises handed out by
    [requestGenerativeAIAnswer]: the connector has only [readonly] fields
    and the executor stores neither settling function, so no later call
    reaches a promise created earlier. *)

Inductive Op : Type :=
| Outbound (a : Action)
| Inbound (messageData : JsObject).

Record World : Type := MkWorld {
  promises : list PromiseState;
  calls : list Call
}.

Section Run.

Variable getActions : list JsVal -> JsVal.
Variable generateAuthFollowUps : string -> JsVal -> JsVal.
Variable props : ConnectorProps.

Definition step (w : World) (op : Op) : World :=
  match op with
  | Outbound (RequestGenerativeAIAnswer tabID payload) =>
      let '(t, r) := requestGenerativeAIAnswer tabID payload in
      MkWorld (promises w ++ match r with inr p => [p] | inl _ => [] end)
              (calls w ++ t)
  | Outbound a => MkWorld (promises w) (calls w ++ (perform a).1)
  | Inbound messageData =>
      MkWorld (promises w)
              (calls w ++ (handleMessageReceive getActions generateAuthFollowUps props messageData).1)
  end.

Definition run (w : World) (ops : list Op) : World := foldl step w ops.

End Run.

(** ** Contracts the specification words for single paths *)

(** Each recognized tag makes exactly one UI call, to its documented
    callback; any other tag does nothing at all. *)
Definition invokes_exactly_one
    (getActions : list JsVal -> JsVal) (generateAuthFollowUps : string -> JsVal -> JsVal)
    (props : ConnectorProps) (messageData : JsObject) : Prop :=
  let r := handleMessageReceive getActions generateAuthFollowUps props messageData in
  (forall T, tagged messageData T ->
     exists xs, ui_calls r.1 = [MkCall (documented T) xs]) /\
  ((forall T, ~ tagged messageData T) -> r = ([], inr tt)).

(** One five-field precedence decides the identifier both of a code result
    and of an answer built by [createAnswer]. *)
Definition same_precedence_everywhere (messageData : JsObject) : Prop :=
  forall v, first_non_missing (id_fields messageData) = Some v ->
    codeResultMessageId messageData = v /\
    (createAnswer messageData).["messageId"] = v.

(** The bookkeeping record of the code-result path. *)
Definition storeCodeResultMessageId (messageData : JsObject) : JsVal :=
  JObj (object [
    ("command", JStr "store-code-result-message-id");
    ("tabID", messageData.["tabID"]);
    ("messageId", codeResultMessageId messageData);
    ("tabType", JStr "featuredev")]).

(** Handling a code result: the bookkeeping send, then one answer whose file
    list holds the entries' paths in input order and the actions computed
    over added-then-deleted entries. *)
Definition code_result_contract
    (getActions : list JsVal -> JsVal) (generateAuthFollowUps : string -> JsVal -> JsVal)
    (props : ConnectorProps) (messageData : JsObject) : Prop :=
  exists (added deleted : list JsVal) (answer fileList : JsObject),
    messageData.["filePaths"] = JArr added /\
    messageData.["deletedFiles"] = JArr deleted /\
    handleMessageReceive getActions generateAuthFollowUps props messageData =
      ([MkCall sendMessageToExtension [storeCodeResultMessageId messageData];
        MkCall onChatAnswerReceived [messageData.["tabID"]; JObj answer]], inr tt) /\
    answer.["messageId"] = codeResultMessageId messageData /\
    answer.["fileList"] = JObj fileList /\
    fileList.["filePaths"] = JArr (zipFilePath_of <$> added) /\
    fileList.["deletedFiles"] = JArr (zipFilePath_of <$> deleted) /\
    fileList.["actions"] = getActions (added ++ deleted).

(** The message text of a progress record, the empty string standing in for
    an absent one. *)
Definition message_or_empty (messageData : JsObject) : JsVal :=
  default (JStr "") (messageData !! "message").

Definition async_progress_contract
    (getActions : list JsVal -> JsVal) (generateAuthFollowUps : string -> JsVal -> JsVal)
    (props : ConnectorProps) (messageData : JsObject) : Prop :=
  handleMessageReceive getActions generateAuthFollowUps props messageData =
    ([MkCall onAsyncEventProgress [
        messageData.["tabID"]; messageData.["inProgress"];
        message_or_empty messageData; JBool true]], inr tt).

(** ** Sample collaborators and records, for closed instances *)

Definition sample_getActions (files : list JsVal) : JsVal :=
  JObj (object [("count", JNum (Z.of_nat (length files)))]).

Definition sample_generateAuthFollowUps (tabType : string) (authType : JsVal) : JsVal :=
  JObj (object [
    ("text", JStr "Select one of the following...");
    ("options", JArr [JObj (object [("type", authType); ("tab", JStr tabType)])])]).

Definition all_callbacks : ConnectorProps :=
  {| has_onChatAnswerReceived := true; has_onChatAnswerUpdated := true |}.

Definition required_callbacks_only : ConnectorProps :=
  {| has_onChatAnswerReceived := false; has_onChatAnswerUpdated := false |}.

Definition sample_chatMessage : JsObject :=
  object [
    ("type", JStr "chatMessage");
    ("tabID", JStr "tab-1");
    ("messageType", JStr "answer");
    ("message", JStr "Working on it");
    ("messageId", JStr "m-1");
    ("triggerID", JStr "trig-1")].

Definition sample_codeResult : JsObject :=
  object [
    ("type", JStr "codeResultMessage");
    ("tabID", JStr "tab-1");
    ("conversationID", JStr "conv-1");
    ("codeGenerationId", JStr "gen-1");
    ("filePaths", JArr [
       JObj (object [("zipFilePath", JStr "src/a.ts")]);
       JObj (object [("zipFilePath", JStr "src/b.ts")])]);
    ("deletedFiles", JArr [JObj (object [("zipFilePath", JStr "src/old.ts")])])].

(** A code result that names no files at all. *)
Definition sample_codeResult_no_files : JsObject :=
  object [
    ("type", JStr "codeResultMessage");
    ("tabID", JStr "tab-1");
    ("conversationID", JStr "conv-1")].

Definition sample_updateChatAnswer : JsObject :=
  object [
    ("type", JStr "updateChatAnswer");
    ("tabID", JStr "tab-1");
    ("messageType", JStr "answer");
    ("conversationID", JStr "conv-1");
    ("codeGenerationId", JStr "gen-1")].

Definition sample_progress : JsObject :=
  object [
    ("type", JStr "asyncEventProgressMessage");
    ("tabID", JStr "tab-1");
    ("inProgress", JBool true)].

Definition sample_authNeeded : JsObject :=
  object [
    ("type", JStr "authNeededException");
    ("tabID", JStr "tab-1");
    ("message", JStr "Sign in to continue");
    ("authType", JStr "full-auth")].

(** A feedback payload with the fields the UI fills in and one more. *)
Definition sample_feedback_with_command : JsObject :=
  object [
    ("messageId", JStr "m-1");
    ("tabId", JStr "tab-1");
    ("selectedOption", JStr "helpful");
    ("command", JStr "open-diff")].

(** A chat message that offers one follow-up. *)
Definition sample_followUps : JsObject :=
  object [
    ("type", JStr "chatMessage");
    ("tabID", JStr "tab-1");
    ("messageType", JStr "answer");
    ("followUps", JArr [JObj (object [("pillText", JStr "Retry")])])].

Abbreviation sample_handle := (handleMessageReceive sample_getActions sample_generateAuthFollowUps).

(** ** Tables for the further properties *)

(** The branches of [handleMessageReceive] that hand record fields to their
    callback unchanged, with the fields in argument order. *)
Definition forwarded_fields (T : Tag) : option (list string) :=
  match T with
  | TagUpdateFileComponent =>
      Some ["tabID"; "filePaths"; "deletedFiles"; "messageId"; "disableFileActions"]
  | TagErrorMessage => Some ["tabID"; "message"; "title"]
  | TagShowInvalidTokenNotification => Some ["tabID"; "message"; "title"]
  | TagUpdatePlaceholderMessage => Some ["tabID"; "newPlaceholder"]
  | TagChatInputEnabledMessage => Some ["tabID"; "enabled"]
  | TagAuthenticationUpdateMessage =>
      Some ["featureDevEnabled"; "codeTransformEnabled"; "docEnabled";
            "codeScanEnabled"; "codeTestEnabled"; "authenticatingTabIDs"]
  | _ => None
  end.

(** The record fields [createAnswer] reads. *)
Definition createAnswer_inputs : list string :=
  ["messageType"; "message"; "messageId"; "messageID"; "triggerID";
   "canBeVoted"; "snapToTop"; "informationCard"; "followUps"].

(** A call that goes to the host hands over one record, and the record has
    the feature discriminator. *)
Definition carries_discriminator (c : Call) : Prop :=
  callee c = sendMessageToExtension ->
  exists msg : JsObject, args c = [JObj msg] /\ msg.["tabType"] = JStr "featuredev".

(** The world of a connector that has just been constructed. *)
Definition fresh_world : World := MkWorld [] [].

(** How many chat prompts a history submits. *)
Definition is_chat_prompt (op : Op) : bool :=
  match op with
  | Outbound (RequestGenerativeAIAnswer _ _) => true
  | _ => false
  end.

(** The file lists of a code result make [processCodeResultMessage] throw. *)
Definition malformed_files (messageData : JsObject) : Prop :=
  is_file_list messageData.["filePaths"] && is_file_list messageData.["deletedFiles"] = false.

(** A code result whose deleted-file list holds a [null] entry. *)
Definition sample_codeResult_null_entry : JsObject :=
  object [
    ("type", JStr "codeResultMessage");
    ("tabID", JStr "tab-1");
    ("messageId", JStr "m-7");
    ("filePaths", JArr [JObj (object [("zipFilePath", JStr "src/a.ts")])]);
    ("deletedFiles", JArr [JNull])].

Definition sample_error : JsObject :=
  object [
    ("type", JStr "errorMessage");
    ("tabID", JStr "tab-1");
    ("message", JStr "Something went wrong")].

(** A short history: a prompt, the host's code result, a vote, a feedback
    whose payload tries to name another channel. *)
Definition sample_history : list Op :=
  [Outbound (RequestGenerativeAIAnswer (JStr "tab-1") (object [("chatMessage", JStr "add tests")]));
   Inbound sample_codeResult;
   Outbound (ChatItemVoted (JStr "tab-1") (JStr "conv-1") (JStr "upvote"));
   Outbound (SendFeedback (JStr "tab-1")
     (object [("tabType", JStr "cwc"); ("tabID", JStr "tab-9"); ("comment", JStr "ok")]))].

(** * Properties *)

(** ** Reading objects *)

Lemma field_insert_eq (o : JsObject) k v : (<[k := v]> o).[k] = v.
Proof. unfold field. by rewrite lookup_insert_eq. Qed.

Lemma field_insert_ne (o : JsObject) k k' v : k <> k' -> (<[k := v]> o).[k'] = o.[k'].
Proof. intros Hne. unfold field. by rewrite lookup_insert_ne. Qed.

Lemma field_union_absent (p o : JsObject) k : p !! k = None -> (p ∪ o).[k] = o.[k].
Proof. intros Hp. unfold field. by rewrite lookup_union_r. Qed.

Lemma field_absent (o : JsObject) k : o !! k = None -> o.[k] = JUndefined.
Proof. intros H. unfold field. by rewrite H. Qed.

Lemma strict_eq_str_true v s : v === s = true <-> v = JStr s.
Proof.
  destruct v; simpl; try (split; [discriminate | discriminate]).
  rewrite String.eqb_eq. split; congruence.
Qed.

Lemma strict_eq_str_false v s : v <> JStr s -> v === s = false.
Proof.
  intros Hne. destruct (v === s) eqn:E; [| done].
  apply strict_eq_str_true in E. contradiction.
Qed.

Lemma coalesce_defined a b : nullish a = false -> a ?? b = a.
Proof. unfold coalesce. by intros ->. Qed.

Lemma coalesce_missing a b : nullish a = true -> a ?? b = b.
Proof. unfold coalesce. by intros ->. Qed.

(** ** Outbound methods *)

(** C5 (in the form that holds): every outbound method makes exactly one call, to the
    send-to-host function, and returns normally; the record it sends has
    [tabType] equal to ['featuredev'] and [command] equal to the method's
    tag, for all arguments, provided that a feedback payload has no own
    property called [command]. *)
Theorem outbound_sends_one_tagged (a : Action) :
  payload_keeps_command a -> sends_one_tagged a.
Proof.
  intros Hp. unfold sends_one_tagged.
  destruct a; simpl in Hp; eexists; (split; [reflexivity |]).
  all: try (split; reflexivity).
  split.
  - by rewrite field_insert_ne, field_insert_eq.
  - rewrite !field_insert_ne by done. by rewrite field_union_absent.
Qed.

Lemma outbound_sends_one_tagged_witness :
  payload_keeps_command (SendFeedback (JStr "tab-1") (object [("messageId", JStr "m-1"); ("comment", JUndefined)])) /\
  sends_one_tagged (SendFeedback (JStr "tab-1") (object [("messageId", JStr "m-1"); ("comment", JUndefined)])).
Proof.
  split; [reflexivity |].
  apply outbound_sends_one_tagged. reflexivity.
Defined.

(** Whatever the payload holds, the discriminator and the tab id are the
    connector's: they are written after the payload is copied in. *)
Lemma sendFeedback_tabType tabId (feedbackPayload : JsObject) :
  exists msg : JsObject,
    sendFeedback tabId feedbackPayload = ([MkCall sendMessageToExtension [JObj msg]], inr tt) /\
    msg.["tabType"] = JStr "featuredev" /\ msg.["tabID"] = tabId.
Proof.
  eexists. split; [reflexivity |]. split.
  - by rewrite field_insert_ne, field_insert_eq.
  - by rewrite field_insert_eq.
Qed.

(** C5 (not as worded): a feedback payload that has a [command] property of
    its own replaces the tag, since it is copied in after [command] is
    written. *)
Lemma outbound_command_overridden :
  ~ sends_one_tagged (SendFeedback (JStr "tab-1") sample_feedback_with_command).
Proof.
  intros (msg & Hsend & _ & Hcmd).
  injection Hsend as <-.
  vm_compute in Hcmd. discriminate.
Qed.

(** ** Reading the file entries *)

Lemma getProp_entry (v : JsVal) k :
  nullish v = false ->
  k = "zipFilePath" ->
  getProp v k = ret (zipFilePath_of v).
Proof. intros Hv ->. by destruct v. Qed.

Lemma mapM_zipFilePath (xs : list JsVal) :
  mapM (fun path => getProp path "zipFilePath") xs =
    if forallb (fun x => negb (nullish x)) xs
    then ret (zipFilePath_of <$> xs)
    else throw TypeError.
Proof.
  induction xs as [| x xs IH]; [reflexivity |].
  cbn [mapM forallb]. rewrite IH.
  destruct x; simpl; try reflexivity;
    destruct (forallb _ xs); reflexivity.
Qed.

Lemma arrayMap_file_list (v : JsVal) :
  arrayMap v (fun path => getProp path "zipFilePath") =
    match v with
    | JArr xs => if is_file_list v then ret (JArr (zipFilePath_of <$> xs)) else throw TypeError
    | _ => throw TypeError
    end.
Proof.
  destruct v; try reflexivity.
  simpl. rewrite mapM_zipFilePath. by destruct (forallb _ xs).
Qed.

Lemma is_file_list_array (v : JsVal) :
  is_file_list v = true -> exists xs, v = JArr xs.
Proof. destruct v; try discriminate. eauto. Qed.

Section InboundFacts.

Variable getActions : list JsVal -> JsVal.
Variable generateAuthFollowUps : string -> JsVal -> JsVal.

Local Abbreviation handle := (handleMessageReceive getActions generateAuthFollowUps).
Local Abbreviation codeResult := (processCodeResultMessage getActions).

(** With the callback and well-formed file lists, the code-result path
    runs to its end. *)
Lemma processCodeResultMessage_ok props (messageData : JsObject) added deleted :
  has_onChatAnswerReceived props = true ->
  messageData.["filePaths"] = JArr added ->
  messageData.["deletedFiles"] = JArr deleted ->
  is_file_list (JArr added) = true ->
  is_file_list (JArr deleted) = true ->
  codeResult props messageData =
    ([MkCall sendMessageToExtension [storeCodeResultMessageId messageData];
      MkCall onChatAnswerReceived [messageData.["tabID"]; JObj (object [
        ("type", JStr ChatItemType_ANSWER);
        ("relatedContent", JUndefined);
        ("followUp", JUndefined);
        ("canBeVoted", JBool true);
        ("codeReference", messageData.["references"]);
        ("messageId", codeResultMessageId messageData);
        ("fileList", JObj (object [
           ("rootFolderTitle", JStr "Changes");
           ("filePaths", JArr (zipFilePath_of <$> added));
           ("deletedFiles", JArr (zipFilePath_of <$> deleted));
           ("actions", getActions (added ++ deleted))]));
        ("body", JStr "")])]], inr tt).
Proof.
  intros Hcb Hfp Hdf Hadded Hdeleted.
  unfold processCodeResultMessage. rewrite Hcb, !arrayMap_file_list, Hfp, Hdf.
  rewrite Hadded, Hdeleted. reflexivity.
Qed.

(** With the callback but a malformed file list, the bookkeeping send is
    the only call and the handler's promise is rejected. *)
Lemma processCodeResultMessage_malformed props (messageData : JsObject) :
  has_onChatAnswerReceived props = true ->
  is_file_list messageData.["filePaths"] && is_file_list messageData.["deletedFiles"] = false ->
  codeResult props messageData =
    ([MkCall sendMessageToExtension [storeCodeResultMessageId messageData]], inl TypeError).
Proof.
  intros Hcb Hbad.
  unfold processCodeResultMessage. rewrite Hcb, !arrayMap_file_list.
  destruct (messageData.["filePaths"]) as [| | | | s | added |] eqn:Hfp;
    try reflexivity.
  - destruct (messageData.["deletedFiles"]) as [| | | | s' | deleted |];
      reflexivity.
  - destruct (messageData.["deletedFiles"]) as [| | | | s' | deleted |] eqn:Hdf;
      try reflexivity.
    + by destruct (is_file_list (JArr added)).
    + destruct (is_file_list (JArr added)) eqn:Ha; [| reflexivity].
      destruct (is_file_list (JArr deleted)) eqn:Hd; [discriminate | reflexivity].
Qed.

Lemma processCodeResultMessage_no_callback props (messageData : JsObject) :
  has_onChatAnswerReceived props = false ->
  codeResult props messageData = ([], inr tt).
Proof. intros Hcb. unfold processCodeResultMessage. by rewrite Hcb. Qed.

(** ** Dispatch *)

Lemma dispatch_codeResult props (messageData : JsObject) :
  tagged messageData TagCodeResultMessage ->
  handle props messageData = codeResult props messageData.
Proof.
  unfold tagged, handleMessageReceive. intros ->. reflexivity.
Qed.

Lemma dispatch_authNeeded props (messageData : JsObject) :
  tagged messageData TagAuthNeededException ->
  handle props messageData =
    detach (processAuthNeededException generateAuthFollowUps props messageData).
Proof.
  unfold tagged, handleMessageReceive. intros ->. reflexivity.
Qed.

(** The test for a tag the record does not carry fails. *)
Ltac skip_tag Hnone T :=
  let H := fresh "Hskip" in
  pose proof (strict_eq_str_false _ _ (Hnone T)) as H;
  unfold tagged in H; cbn [tag_name] in H;
  rewrite H; clear H.

Lemma dispatch_unrecognized props (messageData : JsObject) :
  (forall T, ~ tagged messageData T) ->
  handle props messageData = ([], inr tt).
Proof.
  intros Hnone. unfold handleMessageReceive.
  skip_tag Hnone TagUpdateFileComponent.
  skip_tag Hnone TagUpdateChatAnswer.
  skip_tag Hnone TagErrorMessage.
  skip_tag Hnone TagShowInvalidTokenNotification.
  skip_tag Hnone TagChatMessage.
  skip_tag Hnone TagCodeResultMessage.
  skip_tag Hnone TagAsyncEventProgressMessage.
  skip_tag Hnone TagUpdatePlaceholderMessage.
  skip_tag Hnone TagChatInputEnabledMessage.
  skip_tag Hnone TagAuthenticationUpdateMessage.
  skip_tag Hnone TagAuthNeededException.
  skip_tag Hnone TagOpenNewTabMessage.
  reflexivity.
Qed.

(** C1 (in the form that holds): on a record with a recognized tag the only UI callback
    called is the one documented for the tag, and it is called once for
    the eight tags whose callback is required; once for update-chat-answer
    and for chat-message if the optional callback was supplied, else not at
    all; twice for auth-needed-exception if answer-received was supplied,
    else not at all; once for code-result-message if answer-received was
    supplied and both file lists are arrays of entries, else not at all.
    On a record with any other tag nothing is called and the handler
    returns normally. *)
Theorem handleMessageReceive_dispatch props (messageData : JsObject) :
  let r := handle props messageData in
  (forall T, tagged messageData T ->
     Forall (fun c => callee c = documented T) (ui_calls r.1) /\
     length (ui_calls r.1) = expected_invocations props T messageData) /\
  ((forall T, ~ tagged messageData T) -> r = ([], inr tt)).
Proof.
  cbv zeta. split; [| apply dispatch_unrecognized].
  intros T HT.
  destruct T.
  all: try (unfold tagged in HT; unfold handleMessageReceive; rewrite HT;
            cbn [tag_name strict_eq_str String.eqb Ascii.eqb Bool.eqb];
            split; [repeat constructor | reflexivity]).
  - unfold tagged in HT; unfold handleMessageReceive; rewrite HT.
    cbn [tag_name strict_eq_str String.eqb Ascii.eqb Bool.eqb expected_invocations].
    destruct (has_onChatAnswerUpdated props); split; repeat constructor.
  - unfold tagged in HT; unfold handleMessageReceive; rewrite HT.
    cbn [tag_name strict_eq_str String.eqb Ascii.eqb Bool.eqb expected_invocations].
    unfold processChatMessage.
    destruct (has_onChatAnswerReceived props); split; repeat constructor.
  - rewrite (dispatch_codeResult _ _ HT). cbn [expected_invocations].
    destruct (has_onChatAnswerReceived props) eqn:Hcb.
    + destruct (is_file_list messageData.["filePaths"] && is_file_list messageData.["deletedFiles"]) eqn:Hok.
      * apply andb_prop in Hok as [Hfp Hdf].
        destruct (is_file_list_array _ Hfp) as [added Ha].
        destruct (is_file_list_array _ Hdf) as [deleted Hd].
        rewrite Ha in Hfp. rewrite Hd in Hdf.
        rewrite (processCodeResultMessage_ok _ _ _ _ Hcb Ha Hd Hfp Hdf).
        rewrite Ha, Hd, Hfp, Hdf.
        split; repeat constructor.
      * rewrite (processCodeResultMessage_malformed _ _ Hcb Hok).
        cbn [andb] in *. rewrite Hok. split; repeat constructor.
    + rewrite (processCodeResultMessage_no_callback _ _ Hcb).
      split; repeat constructor.
  - rewrite (dispatch_authNeeded _ _ HT). cbn [expected_invocations].
    unfold processAuthNeededException.
    destruct (has_onChatAnswerReceived props); split; repeat constructor.
Qed.

(** ** The code-result path *)

(** C3 (in the form that holds): when the answer-received callback was supplied and the
    record's [filePaths] and [deletedFiles] are arrays of entries, handling
    a code-result-message record first sends one
    store-code-result-message-id record carrying the resolved message id
    and the tab id, then computes the actions over the added entries
    followed by the deleted ones, then calls answer-received once with an
    answer whose file list has [filePaths] and [deletedFiles] equal to the
    entries' paths in input order. *)
Theorem codeResultMessage_handling props (messageData : JsObject) :
  has_onChatAnswerReceived props = true ->
  tagged messageData TagCodeResultMessage ->
  is_file_list messageData.["filePaths"] = true ->
  is_file_list messageData.["deletedFiles"] = true ->
  code_result_contract getActions generateAuthFollowUps props messageData.
Proof.
  intros Hcb HT Hfp Hdf.
  destruct (is_file_list_array _ Hfp) as [added Ha].
  destruct (is_file_list_array _ Hdf) as [deleted Hd].
  rewrite Ha in Hfp. rewrite Hd in Hdf.
  exists added, deleted. do 2 eexists.
  split; [exact Ha |]. split; [exact Hd |].
  split.
  { rewrite (dispatch_codeResult _ _ HT).
    apply (processCodeResultMessage_ok _ _ _ _ Hcb Ha Hd Hfp Hdf). }
  split; [reflexivity |].
  split; [reflexivity |].
  repeat split; reflexivity.
Qed.

(** C9: without the answer-received callback a code-result-message record
    has no effect at all: neither the bookkeeping send nor a UI call
    happens, and the handler returns normally. *)
Theorem codeResultMessage_without_callback props (messageData : JsObject) :
  has_onChatAnswerReceived props = false ->
  tagged messageData TagCodeResultMessage ->
  handle props messageData = ([], inr tt).
Proof.
  intros Hcb HT.
  rewrite (dispatch_codeResult _ _ HT).
  by apply processCodeResultMessage_no_callback.
Qed.

(** ** Auth-needed handling *)

(** C6: on an auth-needed-exception record the connector, if
    answer-received is registered, calls it exactly twice on the record's
    tab id, first with a plain answer carrying the record's message as
    body and [canBeVoted] false, then with a system-prompt answer with no
    body, [canBeVoted] false and the follow-up block the generator makes
    from ['featuredev'] and the record's [authType]; if it is not
    registered, nothing is called. *)
Theorem authNeededException_handling props (messageData : JsObject) :
  tagged messageData TagAuthNeededException ->
  handle props messageData =
    (if has_onChatAnswerReceived props then
       [MkCall onChatAnswerReceived [messageData.["tabID"]; JObj (object [
          ("type", JStr ChatItemType_ANSWER);
          ("body", messageData.["message"]);
          ("followUp", JUndefined);
          ("canBeVoted", JBool false)])];
        MkCall onChatAnswerReceived [messageData.["tabID"]; JObj (object [
          ("type", JStr ChatItemType_SYSTEM_PROMPT);
          ("body", JUndefined);
          ("followUp", generateAuthFollowUps "featuredev" messageData.["authType"]);
          ("canBeVoted", JBool false)])]]
     else [],
     inr tt).
Proof.
  intros HT. rewrite (dispatch_authNeeded _ _ HT).
  unfold processAuthNeededException.
  by destruct (has_onChatAnswerReceived props).
Qed.

(** ** Progress records *)

(** C8 (in the form that holds): an async-event-progress record makes exactly one call,
    to the async-progress callback, with the record's tab id, its
    in-progress flag, the record's message or [undefined] when the message
    is absent or [null], and the constant [true] for the cancel button. *)
Theorem asyncEventProgress_handling props (messageData : JsObject) :
  tagged messageData TagAsyncEventProgressMessage ->
  handle props messageData =
    ([MkCall onAsyncEventProgress [
        messageData.["tabID"]; messageData.["inProgress"];
        (if nullish messageData.["message"] then JUndefined else messageData.["message"]);
        JBool true]], inr tt).
Proof.
  unfold tagged, handleMessageReceive. intros ->. reflexivity.
Qed.

End InboundFacts.

(** ** Answer construction *)

Lemma messageId_of_createAnswer (messageData : JsObject) :
  (createAnswer messageData).["messageId"] =
    messageData.["messageId"] ?? messageData.["messageID"] ??
    messageData.["triggerID"] ?? JStr "".
Proof. reflexivity. Qed.

Lemma followUp_of_createAnswer (messageData : JsObject) :
  (createAnswer messageData).["followUp"] =
    if is_defined messageData.["followUps"] && isArray messageData.["followUps"]
    then JObj (object [
      ("text",
         if (messageData.["messageType"] === ChatItemType_SYSTEM_PROMPT)
            || length_is_zero messageData.["followUps"]
         then JStr ""
         else JStr "Please follow up with one of these");
      ("options", messageData.["followUps"])])
    else JUndefined.
Proof. reflexivity. Qed.

(** C2 (in the form that holds): in the code-result path the message id is the first
    non-missing of [messageId], [messageID], [triggerID], [conversationID],
    [codeGenerationId], in that priority; the answer built for a chat-message
    or update-chat-answer record uses the first three of them in the same
    priority and falls back to the empty string.  In particular, with
    [messageId] set (and [triggerID] too) the id is [messageId] on both
    paths, and with only [conversationID] and [codeGenerationId] set the
    code-result id is [conversationID]. *)
Theorem messageId_precedence (messageData : JsObject) :
  (forall v, first_non_missing (id_fields messageData) = Some v ->
     codeResultMessageId messageData = v) /\
  (createAnswer messageData).["messageId"] =
     default (JStr "") (first_non_missing (take 3 (id_fields messageData))) /\
  (nullish messageData.["messageId"] = false ->
     codeResultMessageId messageData = messageData.["messageId"] /\
     (createAnswer messageData).["messageId"] = messageData.["messageId"]) /\
  (nullish messageData.["messageId"] = true ->
   nullish messageData.["messageID"] = true ->
   nullish messageData.["triggerID"] = true ->
   nullish messageData.["conversationID"] = false ->
     codeResultMessageId messageData = messageData.["conversationID"]).
Proof.
  rewrite messageId_of_createAnswer.
  unfold codeResultMessageId, first_non_missing, id_fields, coalesce.
  cbn [take List.find].
  destruct (nullish messageData.["messageId"]) eqn:H1;
    destruct (nullish messageData.["messageID"]) eqn:H2;
    destruct (nullish messageData.["triggerID"]) eqn:H3;
    destruct (nullish messageData.["conversationID"]) eqn:H4;
    destruct (nullish messageData.["codeGenerationId"]) eqn:H5;
    cbn [negb default];
    rewrite ?H1, ?H2, ?H3, ?H4, ?H5; cbn [negb default];
    repeat split; try congruence; try discriminate.
Qed.

(** C4: the answer's [followUp] is [undefined] exactly when the record's
    [followUps] is absent or not an array; when a block is produced its
    options are the record's, its text is the empty string exactly when the
    message type is system-prompt or there are no options, and otherwise it
    is the fixed prompt. *)
Theorem createAnswer_followUp (messageData : JsObject) :
  ((createAnswer messageData).["followUp"] = JUndefined <->
     (messageData !! "followUps" = None \/ isArray messageData.["followUps"] = false)) /\
  (forall options, messageData.["followUps"] = JArr options ->
     exists block : JsObject,
       (createAnswer messageData).["followUp"] = JObj block /\
       block.["options"] = JArr options /\
       (block.["text"] = JStr "" <->
          (messageData.["messageType"] = JStr ChatItemType_SYSTEM_PROMPT \/ options = [])) /\
       (~ (messageData.["messageType"] = JStr ChatItemType_SYSTEM_PROMPT \/ options = []) ->
          block.["text"] = JStr "Please follow up with one of these")).
Proof.
  rewrite followUp_of_createAnswer. split.
  - split.
    + intros Hundef. right.
      destruct (messageData.["followUps"]); try reflexivity. discriminate.
    + intros [Habsent | Hnot].
      * by rewrite (field_absent _ _ Habsent).
      * rewrite Hnot, andb_false_r. reflexivity.
  - intros options ->. cbn [is_defined isArray andb length_is_zero].
    eexists. split; [reflexivity |]. split; [reflexivity |].
    change ((object [
        ("text",
         if (messageData.["messageType"] === ChatItemType_SYSTEM_PROMPT)
            || (length options =? 0)%nat
         then JStr "" else JStr "Please follow up with one of these");
        ("options", JArr options)]).["text"])
      with (if (messageData.["messageType"] === ChatItemType_SYSTEM_PROMPT)
               || (length options =? 0)%nat
            then JStr "" else JStr "Please follow up with one of these").
    destruct (messageData.["messageType"] === ChatItemType_SYSTEM_PROMPT) eqn:Hsys.
    + apply strict_eq_str_true in Hsys. cbn [orb].
      split; [tauto | intros Hn; exfalso; apply Hn; by left].
    + assert (Hne : messageData.["messageType"] <> JStr ChatItemType_SYSTEM_PROMPT).
      { intros Heq. apply strict_eq_str_true in Heq. congruence. }
      cbn [orb]. destruct options as [| o options]; cbn [length Nat.eqb].
      * split; [tauto | intros Hn; exfalso; apply Hn; by right].
      * split; [| reflexivity].
        split; [discriminate | intros [? | ?]; [contradiction | discriminate]].
Qed.

(** C10: when [messageId], [messageID] and [triggerID] are all absent, the
    answer built by [createAnswer] has the empty string, not [undefined], as
    its [messageId]; and [createAnswer] never consults [conversationID] or
    [codeGenerationId]: records that agree on every other property give the
    same answer. *)
Theorem createAnswer_messageId_default (messageData : JsObject) :
  (messageData !! "messageId" = None ->
   messageData !! "messageID" = None ->
   messageData !! "triggerID" = None ->
     (createAnswer messageData).["messageId"] = JStr "" /\
     (createAnswer messageData).["messageId"] <> JUndefined) /\
  (forall other : JsObject,
     (forall k, k <> "conversationID" -> k <> "codeGenerationId" ->
        other !! k = messageData !! k) ->
     createAnswer other = createAnswer messageData).
Proof.
  split.
  - intros H1 H2 H3. rewrite messageId_of_createAnswer.
    rewrite !field_absent by done. split; [reflexivity | discriminate].
  - intros other Hagree. unfold createAnswer, field.
    by rewrite !Hagree by done.
Qed.

(** ** The chat-prompt promise *)

Section RunFacts.

Variable getActions : list JsVal -> JsVal.
Variable generateAuthFollowUps : string -> JsVal -> JsVal.
Variable props : ConnectorProps.

Local Abbreviation step' := (step getActions generateAuthFollowUps props).
Local Abbreviation run' := (run getActions generateAuthFollowUps props).

(** No call of a connector method changes a promise handed out before. *)
Lemma step_keeps_promise (w : World) (op : Op) (i : nat) (p : PromiseState) :
promises w !! i = Some p -> promises (step' w op) !! i = Some p.
Proof.
intros Hi. destruct op as [a | messageData]; [| exact Hi].
destruct a; try exact Hi.
cbn. by apply lookup_app_l_Some.
Qed.

Lemma run_keeps_promise (ops : list Op) (w : World) (i : nat) (p : PromiseState) :
promises w !! i = Some p -> promises (run' w ops) !! i = Some p.
Proof.
revert w. induction ops as [| op ops IH]; intros w Hi; [exact Hi |].
cbn [run foldl]. apply IH. by apply step_keeps_promise.
Qed.

Lemma step_request_allocates (w : World) tabID (payload : JsObject) :
promises (step' w (Outbound (RequestGenerativeAIAnswer tabID payload)))
  !! length (promises w) = Some Pending.
Proof.
cbn. rewrite lookup_app_r by lia. by rewrite Nat.sub_diag.
Qed.

(** C7: for every tab id and chat payload, [requestGenerativeAIAnswer] makes
  exactly one call, the send of a chat-prompt record, and returns a
  promise that is pending; whatever the owner does with the connector
  afterwards, that promise is still pending: the connector neither
  resolves nor rejects it. *)
Theorem requestGenerativeAIAnswer_never_settles tabID (payload : JsObject) :
requestGenerativeAIAnswer tabID payload =
  ([MkCall sendMessageToExtension [JObj (object [
      ("tabID", tabID);
      ("command", JStr "chat-prompt");
      ("chatMessage", payload.["chatMessage"]);
      ("tabType", JStr "featuredev")])]], inr Pending) /\
forall (w : World) (ops : list Op),
  promises (run' (step' w (Outbound (RequestGenerativeAIAnswer tabID payload))) ops)
    !! length (promises w) = Some Pending.
Proof.
split; [reflexivity |].
intros w ops. apply run_keeps_promise, step_request_allocates.
Qed.

End RunFacts.

(** The promise constructor of the model does settle promises whose executor
    asks for it: the pending result above comes from the executor of
    [requestGenerativeAIAnswer], not from [newPromise]. *)
Example newPromise_resolves :
  newPromise (fun resolve reject => resolve (JStr "done")) = ([], inr (Fulfilled (JStr "done"))).
Proof. reflexivity. Qed.

Example newPromise_rejects_on_throw :
  newPromise (fun resolve reject => liftExec (throw TypeError)) = ([], inr (Rejected (inl TypeError))).
Proof. reflexivity. Qed.

(** ** Closed instances *)

Lemma handleMessageReceive_dispatch_witness :
  tagged sample_authNeeded TagAuthNeededException /\
  Forall (fun c => callee c = onChatAnswerReceived)
         (ui_calls (sample_handle all_callbacks sample_authNeeded).1) /\
  length (ui_calls (sample_handle all_callbacks sample_authNeeded).1) = 2.
Proof.
  split; [reflexivity |].
  apply (proj1 (handleMessageReceive_dispatch sample_getActions sample_generateAuthFollowUps
                  all_callbacks sample_authNeeded) TagAuthNeededException).
  reflexivity.
Defined.

(** C1 (not as worded): a chat-message record reaching a connector built
    without the answer-received callback has a recognized tag and yet no UI
    callback is called. *)
Lemma chatMessage_without_callback_invokes_none :
  ~ invokes_exactly_one sample_getActions sample_generateAuthFollowUps
      required_callbacks_only sample_chatMessage.
Proof.
  intros [Hone _].
  destruct (Hone TagChatMessage eq_refl) as [xs Hxs].
  vm_compute in Hxs. discriminate.
Qed.

Example authNeeded_invokes_twice :
  length (ui_calls (sample_handle all_callbacks sample_authNeeded).1) = 2.
Proof. reflexivity. Qed.

Lemma messageId_precedence_witness :
  first_non_missing (id_fields sample_codeResult) = Some (JStr "conv-1") /\
  codeResultMessageId sample_codeResult = JStr "conv-1".
Proof.
  split; [reflexivity |].
  apply (proj1 (messageId_precedence sample_codeResult)). reflexivity.
Defined.

(** C2 (not as worded): on an update-chat-answer record that carries only
    [conversationID] and [codeGenerationId], the five-field precedence gives
    [conversationID], but the answer's id is the empty string. *)
Lemma updateChatAnswer_ignores_conversationID :
  ~ same_precedence_everywhere sample_updateChatAnswer.
Proof.
  intros Hsame.
  destruct (Hsame (JStr "conv-1") eq_refl) as [_ Hanswer].
  vm_compute in Hanswer. discriminate.
Qed.

Example updateChatAnswer_messageId_empty :
  (createAnswer sample_updateChatAnswer).["messageId"] = JStr "".
Proof. reflexivity. Qed.

Lemma codeResultMessage_handling_witness :
  has_onChatAnswerReceived all_callbacks = true /\
  tagged sample_codeResult TagCodeResultMessage /\
  is_file_list sample_codeResult.["filePaths"] = true /\
  is_file_list sample_codeResult.["deletedFiles"] = true /\
  code_result_contract sample_getActions sample_generateAuthFollowUps
    all_callbacks sample_codeResult.
Proof.
  repeat (split; [reflexivity |]).
  apply codeResultMessage_handling; reflexivity.
Defined.

(** What the sample code result makes the connector do, written out. *)
Example codeResult_trace :
  exists answer : JsObject,
    sample_handle all_callbacks sample_codeResult =
      ([MkCall sendMessageToExtension [JObj (object [
          ("command", JStr "store-code-result-message-id");
          ("tabID", JStr "tab-1");
          ("messageId", JStr "conv-1");
          ("tabType", JStr "featuredev")])];
        MkCall onChatAnswerReceived [JStr "tab-1"; JObj answer]], inr tt) /\
    exists fileList : JsObject,
      answer.["fileList"] = JObj fileList /\
      fileList.["filePaths"] = JArr [JStr "src/a.ts"; JStr "src/b.ts"] /\
      fileList.["deletedFiles"] = JArr [JStr "src/old.ts"].
Proof.
  eexists. split; [reflexivity |].
  eexists. split; [reflexivity |]. split; reflexivity.
Qed.

(** C3 (not as worded): the contract fails for a connector built without
    the answer-received callback, which sends nothing, and for a record
    without file lists, on which the send is followed by a rejection and no
    UI call. *)
Lemma codeResult_contract_fails :
  ~ code_result_contract sample_getActions sample_generateAuthFollowUps
      required_callbacks_only sample_codeResult /\
  ~ code_result_contract sample_getActions sample_generateAuthFollowUps
      all_callbacks sample_codeResult_no_files.
Proof.
  split.
  - intros (added & deleted & answer & fileList & _ & _ & Hrun & _).
    vm_compute in Hrun. discriminate.
  - intros (added & deleted & answer & fileList & _ & _ & Hrun & _).
    vm_compute in Hrun. discriminate.
Qed.

Example codeResult_no_files_trace :
  sample_handle all_callbacks sample_codeResult_no_files =
    ([MkCall sendMessageToExtension [storeCodeResultMessageId sample_codeResult_no_files]],
     inl TypeError).
Proof. reflexivity. Qed.

Lemma createAnswer_followUp_witness :
  sample_followUps.["followUps"] = JArr [JObj (object [("pillText", JStr "Retry")])] /\
  exists block : JsObject,
    (createAnswer sample_followUps).["followUp"] = JObj block /\
    block.["text"] = JStr "Please follow up with one of these".
Proof.
  split; [reflexivity |].
  destruct (proj2 (createAnswer_followUp sample_followUps) _ eq_refl)
    as (block & Hblock & _ & _ & Htext).
  exists block. split; [exact Hblock |].
  apply Htext. intros [Hsys | Hnil]; [vm_compute in Hsys |]; discriminate.
Defined.

Lemma authNeededException_handling_witness :
  tagged sample_authNeeded TagAuthNeededException /\
  sample_handle all_callbacks sample_authNeeded =
    ([MkCall onChatAnswerReceived [JStr "tab-1"; JObj (object [
        ("type", JStr "answer");
        ("body", JStr "Sign in to continue");
        ("followUp", JUndefined);
        ("canBeVoted", JBool false)])];
      MkCall onChatAnswerReceived [JStr "tab-1"; JObj (object [
        ("type", JStr "system-prompt");
        ("body", JUndefined);
        ("followUp", sample_generateAuthFollowUps "featuredev" (JStr "full-auth"));
        ("canBeVoted", JBool false)])]], inr tt).
Proof.
  split; [reflexivity |].
  apply (authNeededException_handling sample_getActions sample_generateAuthFollowUps
           all_callbacks sample_authNeeded).
  reflexivity.
Defined.

Lemma asyncEventProgress_handling_witness :
  tagged sample_progress TagAsyncEventProgressMessage /\
  sample_handle all_callbacks sample_progress =
    ([MkCall onAsyncEventProgress [JStr "tab-1"; JBool true; JUndefined; JBool true]], inr tt).
Proof.
  split; [reflexivity |].
  apply (asyncEventProgress_handling sample_getActions sample_generateAuthFollowUps
           all_callbacks sample_progress).
  reflexivity.
Defined.

(** C8 (not as worded): for a progress record without a message the third
    argument is [undefined], not the empty string. *)
Lemma asyncEventProgress_absent_message_is_undefined :
  ~ async_progress_contract sample_getActions sample_generateAuthFollowUps
      all_callbacks sample_progress.
Proof.
  unfold async_progress_contract. intros Hrun.
  vm_compute in Hrun. discriminate.
Qed.

Lemma codeResultMessage_without_callback_witness :
  has_onChatAnswerReceived required_callbacks_only = false /\
  tagged sample_codeResult TagCodeResultMessage /\
  sample_handle required_callbacks_only sample_codeResult = ([], inr tt).
Proof.
  do 2 (split; [reflexivity |]).
  apply codeResultMessage_without_callback; reflexivity.
Defined.

Lemma createAnswer_messageId_default_witness :
  sample_updateChatAnswer !! "messageId" = None /\
  sample_updateChatAnswer !! "messageID" = None /\
  sample_updateChatAnswer !! "triggerID" = None /\
  (createAnswer sample_updateChatAnswer).["messageId"] = JStr "".
Proof.
  do 3 (split; [reflexivity |]).
  apply (proj1 (createAnswer_messageId_default sample_updateChatAnswer)); reflexivity.
Defined.

(** * Further properties *)

(** ** What an answer depends on and what it normalizes *)

Lemma coalesce_undefined_not_null (v : JsVal) : v ?? JUndefined <> JNull.
Proof. by destruct v. Qed.

Lemma coalesce_not_nullish (a b : JsVal) : nullish b = false -> nullish (a ?? b) = false.
Proof. intros Hb. unfold coalesce. by destruct (nullish a) eqn:Ha. Qed.

(** X1: [createAnswer] reads the record only through [messageType],
    [message], [messageId], [messageID], [triggerID], [canBeVoted],
    [snapToTop], [informationCard] and [followUps]: two records that read the
    same at these nine names (an absent property reading as [undefined]) give
    the same answer, whatever their [type], [tabID] or other fields. *)
Theorem createAnswer_reads_nine_fields (messageData other : JsObject) :
  (forall k, In k createAnswer_inputs -> other.[k] = messageData.[k]) ->
  createAnswer other = createAnswer messageData.
Proof.
  intros Hagree. unfold createAnswer.
  rewrite (Hagree "messageType"), (Hagree "message"), (Hagree "messageId"),
    (Hagree "messageID"), (Hagree "triggerID"), (Hagree "canBeVoted"),
    (Hagree "snapToTop"), (Hagree "informationCard"), (Hagree "followUps");
    first [reflexivity | cbn; tauto].
Qed.

Lemma createAnswer_reads_nine_fields_witness :
  (forall k, In k createAnswer_inputs ->
     (<["type" := JStr "updateChatAnswer"]> sample_chatMessage).[k] = sample_chatMessage.[k]) /\
  createAnswer (<["type" := JStr "updateChatAnswer"]> sample_chatMessage) =
    createAnswer sample_chatMessage.
Proof.
  assert (Hagree : forall k, In k createAnswer_inputs ->
     (<["type" := JStr "updateChatAnswer"]> sample_chatMessage).[k] = sample_chatMessage.[k]).
  { intros k Hk. simpl in Hk.
    repeat (destruct Hk as [<- | Hk]; [reflexivity |]). destruct Hk. }
  split; [exact Hagree |].
  apply createAnswer_reads_nine_fields. exact Hagree.
Defined.

(** X2: whatever the record, the answer built by [createAnswer] copies
    [messageType] as its [type], has [relatedContent] undefined, a
    [messageId] that is neither [undefined] nor [null], and never [null] as
    [body], [canBeVoted], [snapToTop] or [informationCard]: a [null] from
    the host reaches the UI as [undefined]. *)
Theorem createAnswer_normalizes (messageData : JsObject) :
  let answer := createAnswer messageData in
  answer.["type"] = messageData.["messageType"] /\
  answer.["relatedContent"] = JUndefined /\
  nullish answer.["messageId"] = false /\
  answer.["body"] <> JNull /\
  answer.["canBeVoted"] <> JNull /\
  answer.["snapToTop"] <> JNull /\
  answer.["informationCard"] <> JNull.
Proof.
  cbv zeta.
  split; [reflexivity |]. split; [reflexivity |].
  split.
  { rewrite messageId_of_createAnswer. by apply coalesce_not_nullish. }
  change ((createAnswer messageData).["body"]) with (messageData.["message"] ?? JUndefined).
  change ((createAnswer messageData).["canBeVoted"]) with (messageData.["canBeVoted"] ?? JUndefined).
  change ((createAnswer messageData).["snapToTop"]) with (messageData.["snapToTop"] ?? JUndefined).
  change ((createAnswer messageData).["informationCard"])
    with (messageData.["informationCard"] ?? JUndefined).
  repeat split; apply coalesce_undefined_not_null.
Qed.

(** ** The identifier of a code result *)

(** X3: the identifier resolved for a code result is always the value of one
    of the five identifier fields, never an invented default, and it is
    [undefined] or [null] exactly when all five fields are: a code result
    without any identifier is stored and shown with a missing message id. *)
Theorem codeResultMessageId_missing (messageData : JsObject) :
  In (codeResultMessageId messageData) (id_fields messageData) /\
  (nullish (codeResultMessageId messageData) = true <->
   Forall (fun v => nullish v = true) (id_fields messageData)).
Proof.
  unfold codeResultMessageId, id_fields, coalesce.
  rewrite !Forall_cons, Forall_nil.
  destruct (nullish messageData.["messageId"]) eqn:H1;
    destruct (nullish messageData.["messageID"]) eqn:H2;
    destruct (nullish messageData.["triggerID"]) eqn:H3;
    destruct (nullish messageData.["conversationID"]) eqn:H4;
    destruct (nullish messageData.["codeGenerationId"]) eqn:H5;
    rewrite ?H1, ?H2, ?H3, ?H4, ?H5.
  all: split; [cbn; auto 10 | intuition congruence].
Qed.

(** ** What a feedback record holds *)

(** X4: the record [sendFeedback] sends is the payload with three
    properties written over it: [tabType] is always ['featuredev'] and
    [tabID] always the method's argument, even if the payload has
    properties of these names; [command] is the payload's own [command] if
    it has one and ['chat-item-feedback'] otherwise; every other property is
    the payload's, and nothing else is added. *)
Theorem sendFeedback_record tabId (feedbackPayload : JsObject) :
  exists msg : JsObject,
    sendFeedback tabId feedbackPayload = ([MkCall sendMessageToExtension [JObj msg]], inr tt) /\
    msg !! "tabType" = Some (JStr "featuredev") /\
    msg !! "tabID" = Some tabId /\
    msg !! "command" = Some (default (JStr "chat-item-feedback") (feedbackPayload !! "command")) /\
    (forall k, k <> "tabType" -> k <> "tabID" -> k <> "command" ->
       msg !! k = feedbackPayload !! k).
Proof.
  eexists. split; [reflexivity |].
  split; [by rewrite lookup_insert_ne, lookup_insert_eq |].
  split; [by rewrite lookup_insert_eq |].
  split.
  - rewrite !lookup_insert_ne by done.
    destruct (feedbackPayload !! "command") as [v |] eqn:Hcmd.
    + by rewrite (lookup_union_Some_l _ _ _ _ Hcmd).
    + by rewrite lookup_union_r.
  - intros k Htype Htab Hcmd.
    rewrite !lookup_insert_ne by done.
    destruct (feedbackPayload !! k) as [v |] eqn:Hk.
    + by rewrite (lookup_union_Some_l _ _ _ _ Hk).
    + rewrite lookup_union_r by done.
      unfold object. cbn [foldl fst snd].
      by rewrite lookup_insert_ne, lookup_empty.
Qed.

(** ** More on the inbound dispatch *)

Lemma tag_name_inj (T T' : Tag) : tag_name T = tag_name T' -> T = T'.
Proof. destruct T, T'; intros H; first [reflexivity | discriminate H]. Qed.

Lemma createAnswer_retag (messageData : JsObject) (v : JsVal) :
  createAnswer (<["type" := v]> messageData) = createAnswer messageData.
Proof. unfold createAnswer. by rewrite !field_insert_ne by done. Qed.

Section MoreInboundFacts.

Variable getActions : list JsVal -> JsVal.
Variable generateAuthFollowUps : string -> JsVal -> JsVal.

Local Abbreviation handle := (handleMessageReceive getActions generateAuthFollowUps).
Local Abbreviation codeResult := (processCodeResultMessage getActions).

(** A record carries one of the twelve tags or none of them. *)
Lemma tagged_or_not (messageData : JsObject) :
  (exists T, tagged messageData T) \/ (forall T, ~ tagged messageData T).
Proof.
  unfold tagged.
  destruct (messageData.["type"]) as [| | | | s | |] eqn:Htype;
    try (right; intros T; discriminate).
  destruct (String.eqb_spec s (tag_name TagUpdateFileComponent)) as [-> | ?]; [left; by eexists |].
  destruct (String.eqb_spec s (tag_name TagUpdateChatAnswer)) as [-> | ?]; [left; by eexists |].
  destruct (String.eqb_spec s (tag_name TagErrorMessage)) as [-> | ?]; [left; by eexists |].
  destruct (String.eqb_spec s (tag_name TagShowInvalidTokenNotification)) as [-> | ?]; [left; by eexists |].
  destruct (String.eqb_spec s (tag_name TagChatMessage)) as [-> | ?]; [left; by eexists |].
  destruct (String.eqb_spec s (tag_name TagCodeResultMessage)) as [-> | ?]; [left; by eexists |].
  destruct (String.eqb_spec s (tag_name TagAsyncEventProgressMessage)) as [-> | ?]; [left; by eexists |].
  destruct (String.eqb_spec s (tag_name TagUpdatePlaceholderMessage)) as [-> | ?]; [left; by eexists |].
  destruct (String.eqb_spec s (tag_name TagChatInputEnabledMessage)) as [-> | ?]; [left; by eexists |].
  destruct (String.eqb_spec s (tag_name TagAuthenticationUpdateMessage)) as [-> | ?]; [left; by eexists |].
  destruct (String.eqb_spec s (tag_name TagAuthNeededException)) as [-> | ?]; [left; by eexists |].
  destruct (String.eqb_spec s (tag_name TagOpenNewTabMessage)) as [-> | ?]; [left; by eexists |].
  right. intros T HT. injection HT as ->. by destruct T.
Qed.

(** The branch [handleMessageReceive] takes on a record that carries [T]. *)
Lemma dispatch_tagged props (messageData : JsObject) (T : Tag) :
  tagged messageData T ->
  handle props messageData =
    match T with
    | TagUpdateFileComponent =>
        invoke onFileComponentUpdate [
          messageData.["tabID"]; messageData.["filePaths"]; messageData.["deletedFiles"];
          messageData.["messageId"]; messageData.["disableFileActions"]]
    | TagUpdateChatAnswer =>
        if has_onChatAnswerUpdated props
        then invoke onChatAnswerUpdated [messageData.["tabID"]; JObj (createAnswer messageData)]
        else ret tt
    | TagErrorMessage =>
        invoke onError [messageData.["tabID"]; messageData.["message"]; messageData.["title"]]
    | TagShowInvalidTokenNotification =>
        invoke onWarning [messageData.["tabID"]; messageData.["message"]; messageData.["title"]]
    | TagChatMessage => processChatMessage props messageData
    | TagCodeResultMessage => codeResult props messageData
    | TagAsyncEventProgressMessage =>
        invoke onAsyncEventProgress [
          messageData.["tabID"]; messageData.["inProgress"];
          messageData.["message"] ?? JUndefined; JBool true]
    | TagUpdatePlaceholderMessage =>
        invoke onUpdatePlaceholder [messageData.["tabID"]; messageData.["newPlaceholder"]]
    | TagChatInputEnabledMessage =>
        invoke onChatInputEnabled [messageData.["tabID"]; messageData.["enabled"]]
    | TagAuthenticationUpdateMessage =>
        invoke onUpdateAuthentication [
          messageData.["featureDevEnabled"]; messageData.["codeTransformEnabled"];
          messageData.["docEnabled"]; messageData.["codeScanEnabled"];
          messageData.["codeTestEnabled"]; messageData.["authenticatingTabIDs"]]
    | TagAuthNeededException =>
        detach (processAuthNeededException generateAuthFollowUps props messageData)
    | TagOpenNewTabMessage => invoke onNewTab [JStr "featuredev"]
    end.
Proof.
  unfold tagged, handleMessageReceive. intros ->. by destruct T.
Qed.

(** The calls of one dispatch: UI calls only, or the bookkeeping send of a
    code result followed by UI calls. *)
Lemma inbound_trace_split props (messageData : JsObject) :
  exists ui,
    Forall (fun c => is_ui_call c = true) ui /\
    ((handle props messageData).1 = ui \/
     ((handle props messageData).1 =
        MkCall sendMessageToExtension [storeCodeResultMessageId messageData] :: ui /\
      tagged messageData TagCodeResultMessage /\
      has_onChatAnswerReceived props = true)).
Proof.
  destruct (tagged_or_not messageData) as [[T HT] | Hnone].
  2: { rewrite (dispatch_unrecognized _ _ _ _ Hnone). exists []. split; [constructor | by left]. }
  rewrite (dispatch_tagged props _ _ HT).
  destruct T.
  all: try (eexists; split; [| left; reflexivity]; by repeat constructor).
  - destruct (has_onChatAnswerUpdated props);
      (eexists; split; [| left; reflexivity]; by repeat constructor).
  - unfold processChatMessage. destruct (has_onChatAnswerReceived props);
      (eexists; split; [| left; reflexivity]; by repeat constructor).
  - destruct (has_onChatAnswerReceived props) eqn:Hcb.
    + destruct (is_file_list messageData.["filePaths"] && is_file_list messageData.["deletedFiles"]) eqn:Hok.
      * apply andb_prop in Hok as [Hfp Hdf].
        destruct (is_file_list_array _ Hfp) as [added Ha].
        destruct (is_file_list_array _ Hdf) as [deleted Hd].
        rewrite Ha in Hfp. rewrite Hd in Hdf.
        rewrite (processCodeResultMessage_ok _ _ _ _ _ Hcb Ha Hd Hfp Hdf).
        eexists. split; [| right; split; [reflexivity | by split]].
        by repeat constructor.
      * rewrite (processCodeResultMessage_malformed _ _ _ Hcb Hok).
        exists []. split; [constructor | right; split; [reflexivity | by split]].
    + rewrite (processCodeResultMessage_no_callback _ _ _ Hcb).
      exists []. split; [constructor | by left].
  - unfold processAuthNeededException. destruct (has_onChatAnswerReceived props);
      (eexists; split; [| left; reflexivity]; by repeat constructor).
Qed.

(** X5: [handleMessageReceive] talks back to the host in one case only: a
    send among its calls means the record is a code result, the
    answer-received callback was supplied, and the record sent is the
    store-code-result-message-id bookkeeping record.  No other inbound
    message, recognized or not, makes the connector send anything. *)
Theorem inbound_sends_only_bookkeeping props (messageData : JsObject) (c : Call) :
  In c (handle props messageData).1 ->
  callee c = sendMessageToExtension ->
  tagged messageData TagCodeResultMessage /\
  has_onChatAnswerReceived props = true /\
  args c = [storeCodeResultMessageId messageData].
Proof.
  intros Hin Hsend.
  destruct (inbound_trace_split props messageData) as (ui & Hui & [Htrace | (Htrace & HT & Hcb)]);
    rewrite Htrace in Hin.
  - rewrite Forall_forall in Hui. apply list_elem_of_In, Hui in Hin.
    unfold is_ui_call in Hin. rewrite Hsend in Hin. discriminate.
  - destruct Hin as [<- | Hin]; [by repeat split |].
    rewrite Forall_forall in Hui. apply list_elem_of_In, Hui in Hin.
    unfold is_ui_call in Hin. rewrite Hsend in Hin. discriminate.
Qed.

(** X6: the promise of [handleMessageReceive] is rejected in one case only:
    a code result, with the answer-received callback supplied, whose
    [filePaths] or [deletedFiles] is not an array of entries.  In that case
    the bookkeeping send has already gone out and no UI callback is called;
    every other record, whatever it lacks, is handled without an error. *)
Theorem handleMessageReceive_rejects props (messageData : JsObject) :
  (forall e, (handle props messageData).2 = inl e ->
     tagged messageData TagCodeResultMessage /\
     has_onChatAnswerReceived props = true /\
     malformed_files messageData) /\
  (tagged messageData TagCodeResultMessage ->
   has_onChatAnswerReceived props = true ->
   malformed_files messageData ->
     handle props messageData =
       ([MkCall sendMessageToExtension [storeCodeResultMessageId messageData]], inl TypeError)).
Proof.
  split.
  - intros e.
    destruct (tagged_or_not messageData) as [[T HT] | Hnone].
    2: { rewrite (dispatch_unrecognized _ _ _ _ Hnone). discriminate. }
    rewrite (dispatch_tagged props _ _ HT).
    destruct T; try discriminate.
    + destruct (has_onChatAnswerUpdated props); discriminate.
    + unfold processChatMessage. destruct (has_onChatAnswerReceived props); discriminate.
    + destruct (has_onChatAnswerReceived props) eqn:Hcb.
      * destruct (is_file_list messageData.["filePaths"] && is_file_list messageData.["deletedFiles"]) eqn:Hok;
          [| by intros _].
        apply andb_prop in Hok as [Hfp Hdf].
        destruct (is_file_list_array _ Hfp) as [added Ha].
        destruct (is_file_list_array _ Hdf) as [deleted Hd].
        rewrite Ha in Hfp. rewrite Hd in Hdf.
        rewrite (processCodeResultMessage_ok _ _ _ _ _ Hcb Ha Hd Hfp Hdf). discriminate.
      * rewrite (processCodeResultMessage_no_callback _ _ _ Hcb). discriminate.
  - intros HT Hcb Hbad. rewrite (dispatch_tagged props _ _ HT).
    by apply processCodeResultMessage_malformed.
Qed.

(** X7: the six pass-through branches (file-component update, error,
    invalid-token warning, placeholder, input enabled, authentication
    update) make exactly one call, to the documented callback, whose
    arguments are the record's fields in the documented order, read as they
    are: a missing field arrives as [undefined], [null] stays [null],
    nothing is validated or defaulted, and the optional callbacks play no
    part. *)
Theorem passthrough_forwards_fields props (messageData : JsObject) (T : Tag) (ks : list string) :
  forwarded_fields T = Some ks ->
  tagged messageData T ->
  handle props messageData =
    ([MkCall (documented T) ((fun k => messageData.[k]) <$> ks)], inr tt).
Proof.
  intros Hks HT. rewrite (dispatch_tagged props _ _ HT).
  destruct T; simpl in Hks; try discriminate Hks;
    injection Hks as <-; reflexivity.
Qed.

(** X8: a chat message and an update of a chat answer deliver the same
    thing: for two records that differ only in their [type], one tagged
    chat-message and one update-chat-answer, and with both optional
    callbacks supplied, answer-received and answer-updated are each called
    once, with the same tab id and the same answer. *)
Theorem chatMessage_and_update_deliver_same props (messageData : JsObject) :
  has_onChatAnswerReceived props = true ->
  has_onChatAnswerUpdated props = true ->
  exists xs,
    handle props (<["type" := JStr "chatMessage"]> messageData) =
      ([MkCall onChatAnswerReceived xs], inr tt) /\
    handle props (<["type" := JStr "updateChatAnswer"]> messageData) =
      ([MkCall onChatAnswerUpdated xs], inr tt) /\
    xs = [messageData.["tabID"]; JObj (createAnswer messageData)].
Proof.
  intros Hrecv Hupd. eexists. split; [| split; [| reflexivity]].
  - rewrite (dispatch_tagged props _ TagChatMessage) by apply field_insert_eq.
    unfold processChatMessage. rewrite Hrecv, createAnswer_retag.
    by rewrite field_insert_ne.
  - rewrite (dispatch_tagged props _ TagUpdateChatAnswer) by apply field_insert_eq.
    rewrite Hupd, createAnswer_retag. by rewrite field_insert_ne.
Qed.

(** X9: the answer shown for a well-formed code result is always the same
    kind of item: a plain answer that can be voted on, with an empty body,
    no follow-up, no related content, the record's [references] as code
    references, and a file list titled ['Changes']. *)
Theorem codeResult_answer_fixed_fields props (messageData : JsObject) :
  has_onChatAnswerReceived props = true ->
  tagged messageData TagCodeResultMessage ->
  is_file_list messageData.["filePaths"] = true ->
  is_file_list messageData.["deletedFiles"] = true ->
  exists answer fileList : JsObject,
    handle props messageData =
      ([MkCall sendMessageToExtension [storeCodeResultMessageId messageData];
        MkCall onChatAnswerReceived [messageData.["tabID"]; JObj answer]], inr tt) /\
    answer.["type"] = JStr ChatItemType_ANSWER /\
    answer.["canBeVoted"] = JBool true /\
    answer.["body"] = JStr "" /\
    answer.["followUp"] = JUndefined /\
    answer.["relatedContent"] = JUndefined /\
    answer.["codeReference"] = messageData.["references"] /\
    answer.["fileList"] = JObj fileList /\
    fileList.["rootFolderTitle"] = JStr "Changes".
Proof.
  intros Hcb HT Hfp Hdf.
  destruct (is_file_list_array _ Hfp) as [added Ha].
  destruct (is_file_list_array _ Hdf) as [deleted Hd].
  rewrite Ha in Hfp. rewrite Hd in Hdf.
  do 2 eexists. split.
  { rewrite (dispatch_tagged props _ _ HT).
    apply (processCodeResultMessage_ok _ _ _ _ _ Hcb Ha Hd Hfp Hdf). }
  repeat split; reflexivity.
Qed.

(** X10: the tag must be a string: a record without a [type], or whose
    [type] is a number, a boolean, [null], an array or an object, is
    ignored, with no call and no error, whatever else it holds. *)
Theorem non_string_tag_ignored props (messageData : JsObject) :
  (forall s, messageData.["type"] <> JStr s) ->
  handleMessageReceive getActions generateAuthFollowUps props messageData = ([], inr tt).
Proof.
  intros Hnot. apply dispatch_unrecognized.
  intros T HT. exact (Hnot _ HT).
Qed.

End MoreInboundFacts.

(** ** Histories *)

(** One outbound method call: a single send of a record with the
    discriminator, and with the method's tag unless a feedback payload
    brings its own [command]. *)
Lemma perform_one_send (a : Action) :
  exists msg : JsObject,
    (perform a).1 = [MkCall sendMessageToExtension [JObj msg]] /\
    msg.["tabType"] = JStr "featuredev" /\
    (payload_keeps_command a -> msg.["command"] = JStr (command_of a)).
Proof.
  destruct a; eexists; (split; [reflexivity |]).
  all: try (split; [reflexivity | intros _; reflexivity]).
  split.
  - by rewrite field_insert_ne, field_insert_eq.
  - cbn [payload_keeps_command]. intros Hp.
    rewrite !field_insert_ne by done. by rewrite field_union_absent.
Qed.

Section HistoryFacts.

Variable getActions : list JsVal -> JsVal.
Variable generateAuthFollowUps : string -> JsVal -> JsVal.
Variable props : ConnectorProps.

Local Abbreviation handle := (handleMessageReceive getActions generateAuthFollowUps).
Local Abbreviation step' := (step getActions generateAuthFollowUps props).
Local Abbreviation run' := (run getActions generateAuthFollowUps props).

Lemma step_outbound_calls (w : World) (a : Action) :
  calls (step' w (Outbound a)) = calls w ++ (perform a).1.
Proof. by destruct a. Qed.

Lemma step_promises (w : World) (op : Op) :
  promises (step' w op) =
    promises w ++ (if is_chat_prompt op then [Pending] else []).
Proof.
  destruct op as [a | messageData]; [destruct a |]; cbn; by rewrite ?app_nil_r.
Qed.

Lemma step_carries_discriminator (w : World) (op : Op) :
  Forall carries_discriminator (calls w) ->
  Forall carries_discriminator (calls (step' w op)).
Proof.
  intros Hw. destruct op as [a | messageData].
  - rewrite step_outbound_calls. apply Forall_app. split; [exact Hw |].
    destruct (perform_one_send a) as (msg & -> & Htype & _).
    repeat constructor. intros _. by exists msg.
  - cbn. apply Forall_app. split; [exact Hw |].
    destruct (inbound_trace_split getActions generateAuthFollowUps props messageData)
      as (ui & Hui & [-> | (-> & _ & _)]).
    + eapply Forall_impl; [exact Hui |].
      intros c Hc Hsend. unfold is_ui_call in Hc. rewrite Hsend in Hc. discriminate.
    + constructor.
      * intros _. eexists. split; reflexivity.
      * eapply Forall_impl; [exact Hui |].
        intros c Hc Hsend. unfold is_ui_call in Hc. rewrite Hsend in Hc. discriminate.
Qed.

Lemma run_carries_discriminator (ops : list Op) (w : World) :
  Forall carries_discriminator (calls w) ->
  Forall carries_discriminator (calls (run' w ops)).
Proof.
  revert w. induction ops as [| op ops IH]; intros w Hw; [exact Hw |].
  cbn [run foldl]. apply IH. by apply step_carries_discriminator.
Qed.

(** X11: over any history of a connector, outbound method calls and inbound
    records in any order and with any arguments, every call that reaches the
    host hands over exactly one record and that record's [tabType] is
    ['featuredev']. *)
Theorem every_send_carries_discriminator (ops : list Op) :
  Forall carries_discriminator (calls (run' fresh_world ops)).
Proof. apply run_carries_discriminator. constructor. Qed.

Lemma run_promises (ops : list Op) (w : World) :
  promises (run' w ops) =
    promises w ++ replicate (length (List.filter is_chat_prompt ops)) Pending.
Proof.
  revert w. induction ops as [| op ops IH]; intros w.
  - cbn. by rewrite app_nil_r.
  - cbn [run foldl]. fold (run' (step' w op) ops).
    rewrite IH, step_promises. cbn [List.filter].
    destruct (is_chat_prompt op); cbn [length replicate].
    + by rewrite <- app_assoc.
    + by rewrite app_nil_r.
Qed.

(** X12: over any history the connector has handed out exactly one promise
    per chat prompt submitted, and every one of them is still pending:
    nothing the host sends, and no other method call, settles a prompt. *)
Theorem prompts_stay_pending (ops : list Op) :
  promises (run' fresh_world ops) =
    replicate (length (List.filter is_chat_prompt ops)) Pending.
Proof. by rewrite run_promises. Qed.

Lemma run_outbound_calls (acts : list Action) (w : World) :
  calls (run' w (Outbound <$> acts)) = calls w ++ concat ((fun a => (perform a).1) <$> acts).
Proof.
  revert w. induction acts as [| a acts IH]; intros w.
  - cbn. by rewrite app_nil_r.
  - cbn [fmap list_fmap run foldl]. fold (run' (step' w (Outbound a)) (Outbound <$> acts)).
    rewrite IH, step_outbound_calls. cbn [concat]. by rewrite <- app_assoc.
Qed.

(** X13: a history of outbound method calls alone produces exactly one send
    per call, in the order of the calls, and never a UI callback; the
    record of each send has the tag of its method, unless it is a feedback
    whose payload has a [command] of its own. *)
Theorem outbound_history_one_send_each (acts : list Action) :
  exists msgs : list JsObject,
    calls (run' fresh_world (Outbound <$> acts)) =
      (fun msg => MkCall sendMessageToExtension [JObj msg]) <$> msgs /\
    Forall2 (fun a (msg : JsObject) =>
               payload_keeps_command a -> msg.["command"] = JStr (command_of a))
            acts msgs.
Proof.
  rewrite run_outbound_calls. cbn [fresh_world calls app].
  induction acts as [| a acts (msgs & Hcalls & Hcmd)].
  - exists []. split; [reflexivity | constructor].
  - destruct (perform_one_send a) as (msg & Hmsg & _ & Hcommand).
    exists (msg :: msgs). split.
    + cbn [fmap list_fmap concat]. rewrite Hmsg. cbn [app]. f_equal. exact Hcalls.
    + by constructor.
Qed.

End HistoryFacts.

(** ** What the prompt and code methods leave out *)

(** X14: of its payload [requestGenerativeAIAnswer] forwards the
    [chatMessage] and nothing else: two payloads with the same [chatMessage]
    give the same send, and the selection kind passed to
    [onCodeInsertToCursorPosition] and [onCopyCodeToClipboard] is never
    forwarded to the host. *)
Theorem prompt_and_code_methods_drop_extras tabID (payload payload' : JsObject)
    (code type type' codeReference : JsVal) :
  payload.["chatMessage"] = payload'.["chatMessage"] ->
  requestGenerativeAIAnswer tabID payload = requestGenerativeAIAnswer tabID payload' /\
  onCodeInsertToCursorPosition tabID code type codeReference =
    onCodeInsertToCursorPosition tabID code type' codeReference /\
  onCopyCodeToClipboard tabID code type codeReference =
    onCopyCodeToClipboard tabID code type' codeReference.
Proof.
  intros Hmsg. split; [| split; reflexivity].
  unfold requestGenerativeAIAnswer. by rewrite Hmsg.
Qed.

(** ** Closed instances of the further properties *)

Lemma prompt_and_code_methods_drop_extras_witness :
  (object [("chatMessage", JStr "add tests")]).["chatMessage"] =
    (object [("chatMessage", JStr "add tests"); ("context", JStr "src/")]).["chatMessage"] /\
  requestGenerativeAIAnswer (JStr "tab-1") (object [("chatMessage", JStr "add tests")]) =
    requestGenerativeAIAnswer (JStr "tab-1")
      (object [("chatMessage", JStr "add tests"); ("context", JStr "src/")]).
Proof.
  split; [reflexivity |].
  apply (prompt_and_code_methods_drop_extras (JStr "tab-1") _ _
           JUndefined (JStr "selection") (JStr "block") JUndefined).
  reflexivity.
Defined.

Lemma inbound_sends_only_bookkeeping_witness :
  In (MkCall sendMessageToExtension [storeCodeResultMessageId sample_codeResult])
     (sample_handle all_callbacks sample_codeResult).1 /\
  callee (MkCall sendMessageToExtension [storeCodeResultMessageId sample_codeResult]) =
    sendMessageToExtension /\
  tagged sample_codeResult TagCodeResultMessage /\
  has_onChatAnswerReceived all_callbacks = true.
Proof.
  assert (Hin : In (MkCall sendMessageToExtension [storeCodeResultMessageId sample_codeResult])
                   (sample_handle all_callbacks sample_codeResult).1)
    by (left; reflexivity).
  split; [exact Hin |]. split; [reflexivity |].
  destruct (inbound_sends_only_bookkeeping sample_getActions sample_generateAuthFollowUps
              all_callbacks sample_codeResult _ Hin eq_refl) as (HT & Hcb & _).
  split; assumption.
Defined.

Lemma handleMessageReceive_rejects_witness :
  tagged sample_codeResult_null_entry TagCodeResultMessage /\
  has_onChatAnswerReceived all_callbacks = true /\
  malformed_files sample_codeResult_null_entry /\
  sample_handle all_callbacks sample_codeResult_null_entry =
    ([MkCall sendMessageToExtension [JObj (object [
        ("command", JStr "store-code-result-message-id");
        ("tabID", JStr "tab-1");
        ("messageId", JStr "m-7");
        ("tabType", JStr "featuredev")])]], inl TypeError).
Proof.
  do 3 (split; [reflexivity |]).
  apply (proj2 (handleMessageReceive_rejects sample_getActions sample_generateAuthFollowUps
                  all_callbacks sample_codeResult_null_entry)); reflexivity.
Defined.

Lemma passthrough_forwards_fields_witness :
  forwarded_fields TagErrorMessage = Some ["tabID"; "message"; "title"] /\
  tagged sample_error TagErrorMessage /\
  sample_handle required_callbacks_only sample_error =
    ([MkCall onError [JStr "tab-1"; JStr "Something went wrong"; JUndefined]], inr tt).
Proof.
  do 2 (split; [reflexivity |]).
  apply (passthrough_forwards_fields sample_getActions sample_generateAuthFollowUps
           required_callbacks_only sample_error TagErrorMessage
           ["tabID"; "message"; "title"]); reflexivity.
Defined.

Lemma chatMessage_and_update_deliver_same_witness :
  has_onChatAnswerReceived all_callbacks = true /\
  has_onChatAnswerUpdated all_callbacks = true /\
  exists xs,
    sample_handle all_callbacks (<["type" := JStr "chatMessage"]> sample_chatMessage) =
      ([MkCall onChatAnswerReceived xs], inr tt) /\
    sample_handle all_callbacks (<["type" := JStr "updateChatAnswer"]> sample_chatMessage) =
      ([MkCall onChatAnswerUpdated xs], inr tt) /\
    xs = [sample_chatMessage.["tabID"]; JObj (createAnswer sample_chatMessage)].
Proof.
  do 2 (split; [reflexivity |]).
  apply chatMessage_and_update_deliver_same; reflexivity.
Defined.

Lemma codeResult_answer_fixed_fields_witness :
  has_onChatAnswerReceived all_callbacks = true /\
  tagged sample_codeResult TagCodeResultMessage /\
  is_file_list sample_codeResult.["filePaths"] = true /\
  is_file_list sample_codeResult.["deletedFiles"] = true /\
  exists answer : JsObject,
    sample_handle all_callbacks sample_codeResult =
      ([MkCall sendMessageToExtension [storeCodeResultMessageId sample_codeResult];
        MkCall onChatAnswerReceived [JStr "tab-1"; JObj answer]], inr tt) /\
    answer.["canBeVoted"] = JBool true /\
    answer.["body"] = JStr "".
Proof.
  do 4 (split; [reflexivity |]).
  destruct (codeResult_answer_fixed_fields sample_getActions sample_generateAuthFollowUps
              all_callbacks sample_codeResult eq_refl eq_refl eq_refl eq_refl)
    as (answer & fileList & Hrun & _ & Hvote & Hbody & _).
  exists answer. split; [exact Hrun |]. split; assumption.
Defined.

Lemma non_string_tag_ignored_witness :
  (forall s, (object [("type", JNum 7); ("tabID", JStr "tab-1")]).["type"] <> JStr s) /\
  sample_handle all_callbacks (object [("type", JNum 7); ("tabID", JStr "tab-1")]) = ([], inr tt).
Proof.
  assert (Hnot : forall s, (object [("type", JNum 7); ("tabID", JStr "tab-1")]).["type"] <> JStr s)
    by (intros s; vm_compute; discriminate).
  split; [exact Hnot |].
  apply non_string_tag_ignored. exact Hnot.
Defined.

Lemma outbound_history_one_send_each_witness :
  exists msgs : list JsObject,
    calls (run sample_getActions sample_generateAuthFollowUps all_callbacks fresh_world
             (Outbound <$> [TabOpen (JStr "tab-1"); StopChatResponse (JStr "tab-1")])) =
      (fun msg => MkCall sendMessageToExtension [JObj msg]) <$> msgs /\
    length msgs = 2.
Proof.
  destruct (outbound_history_one_send_each sample_getActions sample_generateAuthFollowUps
              all_callbacks [TabOpen (JStr "tab-1"); StopChatResponse (JStr "tab-1")])
    as (msgs & Hcalls & Hcmd).
  exists msgs. split; [exact Hcalls |].
  apply Forall2_length in Hcmd. symmetry. exact Hcmd.
Defined.

(** The sample history, run: two sends by the owner, the bookkeeping send
    and the answer of the code result, and the feedback with the connector's
    own channel and tab. *)
Example sample_history_discriminators :
  (fun c => match args c with
            | [JObj msg] => (callee c, msg.["tabType"])
            | _ => (callee c, JUndefined)
            end)
    <$> calls (run sample_getActions sample_generateAuthFollowUps all_callbacks
                 fresh_world sample_history) =
  [(sendMessageToExtension, JStr "featuredev");
   (sendMessageToExtension, JStr "featuredev");
   (onChatAnswerReceived, JUndefined);
   (sendMessageToExtension, JStr "featuredev");
   (sendMessageToExtension, JStr "featuredev")].
Proof. vm_compute. reflexivity. Qed.
